(** * mogwai.migrations.migrations.actions

    A shallow embedding of the schema-migration actions of
    [mogwai/migrations/migrations/actions.py]: the classes [Action],
    [AddModel], [DeleteModel], [_NullIssuesField], [AddField], [DeleteField],
    [ChangeField], [AddUnique], [DeleteUnique], [AddIndex], [DeleteIndex] and
    [UpdateIndex], their class attributes as Python resolves them along the
    method resolution order, the [%] templating of the code fragments, and
    the interactive dialog about fields that are not nullable and have no
    default. *)

From Stdlib Require Import String Ascii List ZArith Bool Lia.
From stdpp Require Import base option gmap strings.

Local Open Scope string_scope.
Local Open Scope list_scope.

(** ** Python values, exceptions and results *)

Definition nl : string := String "010"%char EmptyString.
Definition dq : string := String "034"%char EmptyString.

(** The exceptions the module can raise or let through. *)
Inductive Exc : Type :=
| NotImplementedError
| AttributeError (attr : string)
| MogwaiMigrationException (msg : string)
| EOFError
| KeyError (key : string)
| ValueError (msg : string)
| TypeError (msg : string)
| UserCodeError (name : string).

(** A pure computation: a value, or a raised exception. *)
Inductive Res (A : Type) : Type :=
| Ret (a : A)
| Err (e : Exc).
Arguments Ret {A} a.
Arguments Err {A} e.

Definition rbind {A B} (r : Res A) (k : A -> Res B) : Res B :=
  match r with
  | Ret a => k a
  | Err e => Err e
  end.

Definition rmap {A B} (f : A -> B) (r : Res A) : Res B :=
  rbind r (fun a => Ret (f a)).

#[export] Instance res_ret : MRet Res := @Ret.
#[export] Instance res_bind : MBind Res := fun A B k r => rbind r k.
#[export] Instance res_fmap : FMap Res := fun A B f r => rmap f r.

(** The values the templates are rendered with: text, or a list of text
    (the [[field.column for field in self.fields]] comprehensions). *)
Inductive PyVal : Type :=
| VStr (s : string)
| VList (l : list string).

Fixpoint join (sep : string) (l : list string) : string :=
  match l with
  | [] => EmptyString
  | [x] => x
  | x :: rest => x +:+ sep +:+ join sep rest
  end.

Section Formatting.

(** [repr] of a text value is the interpreter's business (quoting,
    escaping, the [u] prefix under [unicode_literals]); it is a parameter
    of the development. *)
Variable repr_text : string -> string.

Definition repr_list (l : list string) : string :=
  "[" +:+ join ", " (map repr_text l) +:+ "]".

(** [str(v)], the [%s] conversion. *)
Definition py_str (v : PyVal) : string :=
  match v with
  | VStr s => s
  | VList l => repr_list l
  end.

(** [repr(v)], the [%r] conversion. *)
Definition py_repr (v : PyVal) : string :=
  match v with
  | VStr s => repr_text s
  | VList l => repr_list l
  end.

Definition convert (c : ascii) (v : PyVal) : Res string :=
  if Ascii.eqb c "s" then Ret (py_str v)
  else if Ascii.eqb c "r" then Ret (py_repr v)
  else Err (ValueError "unsupported format character").

(** A dict display [{k1: v1, ...}]: later bindings of a key replace
    earlier ones. *)
Fixpoint dict_get (d : list (string * PyVal)) (k : string) : option PyVal :=
  match d with
  | [] => None
  | (k', v) :: rest =>
      match dict_get rest k with
      | Some v' => Some v'
      | None => if String.eqb k' k then Some v else None
      end
  end.

Inductive FmtState : Type :=
| Lit
| Pct
| Key (k : string)
| Conv (k : string).

(** [template % mapping] for the conversions the module's templates use,
    [%(name)s] and [%(name)r]. *)
Fixpoint fmt_map (st : FmtState) (t : string) (d : list (string * PyVal))
  : Res string :=
  match t with
  | EmptyString =>
      match st with
      | Lit => Ret EmptyString
      | _ => Err (ValueError "incomplete format")
      end
  | String c t' =>
      match st with
      | Lit =>
          if Ascii.eqb c "%" then fmt_map Pct t' d
          else (s ← fmt_map Lit t' d; Ret (String c s))
      | Pct =>
          if Ascii.eqb c "(" then fmt_map (Key EmptyString) t' d
          else if Ascii.eqb c "%"
               then (s ← fmt_map Lit t' d; Ret (String c s))
               else Err (ValueError "unsupported format character")
      | Key k =>
          if Ascii.eqb c ")" then fmt_map (Conv k) t' d
          else fmt_map (Key (k +:+ String c EmptyString)) t' d
      | Conv k =>
          match dict_get d k with
          | None => Err (KeyError k)
          | Some v =>
              (x ← convert c v;
               s ← fmt_map Lit t' d;
               Ret (x +:+ s))
          end
      end
  end.

Definition format_map (t : string) (d : list (string * PyVal)) : Res string :=
  fmt_map Lit t d.

(** [template % (a1, ..., an)] with positional [%s] and [%r]. *)
Fixpoint fmt_args (pct : bool) (t : string) (args : list PyVal) : Res string :=
  match t with
  | EmptyString =>
      if pct then Err (ValueError "incomplete format")
      else match args with
           | [] => Ret EmptyString
           | _ :: _ =>
               Err (TypeError "not all arguments converted during string formatting")
           end
  | String c t' =>
      if pct then
        if Ascii.eqb c "%"
        then (s ← fmt_args false t' args; Ret (String c s))
        else match args with
             | [] => Err (TypeError "not enough arguments for format string")
             | v :: rest =>
                 (x ← convert c v;
                  s ← fmt_args false t' rest;
                  Ret (x +:+ s))
             end
      else if Ascii.eqb c "%" then fmt_args true t' args
           else (s ← fmt_args false t' args; Ret (String c s))
  end.

Definition format_args (t : string) (args : list PyVal) : Res string :=
  fmt_args false t args.

End Formatting.

(** ** The data the actions are built from *)

(** What [issubclass(model, Vertex)] and [issubclass(model, Edge)] can
    answer for a model class: [Vertex] and [Edge] are separate element
    hierarchies of [mogwai.models]. *)
Inductive ModelBase : Type :=
| VertexBase
| EdgeBase
| OtherBase.

#[export] Instance ModelBase_eq_dec : EqDecision ModelBase.
Proof. solve_decision. Defined.

(** A model class as the actions use it: [__name__], its [str()], its base
    and what [get_element_type()] and [get_label()] return. *)
Record Model : Type := {
  m_name : string;
  m_str : string;
  m_base : ModelBase;
  get_element_type : string;
  get_label : string
}.

Definition issubclass_Vertex (m : Model) : bool :=
  match m_base m with VertexBase => true | _ => false end.

Definition issubclass_Edge (m : Model) : bool :=
  match m_base m with EdgeBase => true | _ => false end.

(** The property classes [isinstance(field, (String, Text))] tells apart. *)
Inductive PropertyClass : Type :=
| String_
| Text
| OtherProperty.

(** A field (a mogwai property instance): the attributes the module reads.
    [default] is [None] or the source text of a value. *)
Record Field : Type := {
  name : string;
  column : string;
  required : bool;
  default : option string;
  property_class : PropertyClass;
  blank : bool
}.

Definition isinstance_String_Text (f : Field) : bool :=
  match property_class f with
  | String_ | Text => true
  | OtherProperty => false
  end.

(** A field definition is a triple [(class path, args, kwargs)]; [kwargs]
    is a dict, a mutable object that lives in the store and is named by its
    address. *)
Definition loc : Type := nat.

Record Triple : Type := {
  path : string;
  args : list string;
  kwargs : loc
}.

(** ** Classes, class attributes and the method resolution order *)

Inductive PyClass : Type :=
| Action
| AddModel
| DeleteModel
| _NullIssuesField
| AddField
| DeleteField
| ChangeField
| AddUnique
| DeleteUnique
| AddIndex
| DeleteIndex
| UpdateIndex.

#[export] Instance PyClass_eq_dec : EqDecision PyClass.
Proof. solve_decision. Defined.

(** The ten classes of actions that are instantiated. *)
Definition concrete_actions : list PyClass :=
  [AddModel; DeleteModel; AddField; DeleteField; ChangeField;
   AddUnique; DeleteUnique; AddIndex; DeleteIndex; UpdateIndex].

Definition AddModel_FORWARDS_TEMPLATE : string :=
  "        # Adding %(model_type)s '%(model_class_name)s'" +:+ nl +:+
  "        db.create_%(model_type)s(%(model_name)r, (" +:+ nl +:+
  "            %(field_defs)s" +:+ nl +:+
  "        ))" +:+ nl +:+
  "        db.send_create_signal(%(model_type)s, %(app_label)r, [%(model_class_name)r])"
  +:+ nl.

Definition AddModel_BACKWARDS_TEMPLATE : string :=
  "        # Deleting %(model_type)s '%(model_class_name)s'" +:+ nl +:+
  "        db.delete_%(model_type)s(%(model_name)r)" +:+ nl.

Definition IRREVERSIBLE_TEMPLATE : string :=
  nl +:+
  "        # User chose to not deal with backwards NULL issues for '%(model_class_name)s.%(field_name)s'"
  +:+ nl +:+
  "        raise RuntimeError(" +:+ dq +:+
  "Cannot reverse this migration. '%(model_class_name)s.%(field_name)s' and its values cannot be restored."
  +:+ dq +:+ ")" +:+ nl +:+
  nl +:+
  "        # The following code is provided here to aid in writing a correct migration".

Definition AddField_FORWARDS_TEMPLATE : string :=
  "        # Adding field '%(model_class_name)s.%(field_name)s'" +:+ nl +:+
  "        db.add_property(%(model_name)r, %(field_name)r," +:+ nl +:+
  "                        %(field_def)s," +:+ nl +:+
  "                        keep_default=False)" +:+ nl.

Definition AddField_BACKWARDS_TEMPLATE : string :=
  "        # Deleting field '%(model_class_name)s.%(field_name)s'" +:+ nl +:+
  "        db.delete_property(%(model_name)r, %(field_column)r)" +:+ nl.

Definition ChangeField_FORWARDS_TEMPLATE : string :=
  nl +:+
  "        # Changing field '%(model_class_name)s.%(field_name)s'" +:+ nl +:+
  "        db.alter_property(%(model_name)r, %(field_column)r, %(field_def)s)".

Definition ChangeField_RENAME_TEMPLATE : string :=
  nl +:+
  "        # Renaming property for '%(model_class_name)s.%(field_name)s' to match new field type."
  +:+ nl +:+
  "        db.rename_property(%(model_name)r, %(old_column)r, %(new_column)r)".

Definition AddUnique_FORWARDS_TEMPLATE : string :=
  "        # Adding unique constraint on '%(model_class_name)s', fields %(field_names)s"
  +:+ nl +:+
  "        db.create_unique(%(model_name)r, %(fields)r)" +:+ nl.

Definition AddUnique_BACKWARDS_TEMPLATE : string :=
  "        # Removing unique constraint on '%(model_class_name)s', fields %(field_names)s"
  +:+ nl +:+
  "        db.delete_unique(%(model_name)r, %(fields)r)" +:+ nl.

Definition AddIndex_FORWARDS_TEMPLATE : string :=
  "        # Adding index on '%(model_class_name)s', fields %(field_names)s" +:+ nl +:+
  "        db.create_index(%(model_name)r, %(fields)r)" +:+ nl.

Definition AddIndex_BACKWARDS_TEMPLATE : string :=
  "        # Removing index on '%(model_class_name)s', fields %(field_names)s" +:+ nl +:+
  "        db.delete_index(%(model_name)r, %(fields)r)" +:+ nl.

Definition AddIndex_UPDATE_TEMPLATE : string :=
  "        # Updating index on '%(model_class_name)s', fields %(field_names)s" +:+ nl +:+
  "        db.update_index(%(model_name)r, %(fields)r)" +:+ nl.

(** What a name is bound to in a class body. *)
Inductive ClassAttr : Type :=
| ABool (b : bool)
| AStr (s : string)
| AMethod.

(** The body of each [class] statement, name by name. *)
Definition class_dict (c : PyClass) : list (string * ClassAttr) :=
  match c with
  | Action =>
      [("prepend_forwards", ABool false);
       ("prepend_backwards", ABool false);
       ("forwards_code", AMethod);
       ("backwards_code", AMethod);
       ("add_forwards", AMethod);
       ("add_backwards", AMethod);
       ("console_line", AMethod)]
  | AddModel =>
      [("FORWARDS_TEMPLATE", AStr AddModel_FORWARDS_TEMPLATE);
       ("BACKWARDS_TEMPLATE", AStr AddModel_BACKWARDS_TEMPLATE);
       ("__init__", AMethod);
       ("console_line", AMethod);
       ("forwards_code", AMethod);
       ("backwards_code", AMethod)]
  | DeleteModel =>
      [("console_line", AMethod);
       ("forwards_code", AMethod);
       ("backwards_code", AMethod)]
  | _NullIssuesField =>
      [("issue_with_backward_migration", ABool false);
       ("irreversible", ABool false);
       ("IRREVERSIBLE_TEMPLATE", AStr IRREVERSIBLE_TEMPLATE);
       ("deal_with_not_null_no_default", AMethod);
       ("add_one_time_default", AMethod);
       ("irreversable_code", AMethod)]
  | AddField =>
      [("null_reason", AStr "adding this field");
       ("FORWARDS_TEMPLATE", AStr AddField_FORWARDS_TEMPLATE);
       ("BACKWARDS_TEMPLATE", AStr AddField_BACKWARDS_TEMPLATE);
       ("__init__", AMethod);
       ("console_line", AMethod);
       ("forwards_code", AMethod);
       ("backwards_code", AMethod)]
  | DeleteField =>
      [("null_reason", AStr "removing this field");
       ("issue_with_backward_migration", ABool true);
       ("console_line", AMethod);
       ("forwards_code", AMethod);
       ("backwards_code", AMethod)]
  | ChangeField =>
      [("null_reason", AStr "making this field non-nullable");
       ("FORWARDS_TEMPLATE", AStr ChangeField_FORWARDS_TEMPLATE);
       ("BACKWARDS_TEMPLATE", AStr ChangeField_FORWARDS_TEMPLATE);
       ("RENAME_TEMPLATE", AStr ChangeField_RENAME_TEMPLATE);
       ("__init__", AMethod);
       ("console_line", AMethod);
       ("_code", AMethod);
       ("forwards_code", AMethod);
       ("backwards_code", AMethod)]
  | AddUnique =>
      [("FORWARDS_TEMPLATE", AStr AddUnique_FORWARDS_TEMPLATE);
       ("BACKWARDS_TEMPLATE", AStr AddUnique_BACKWARDS_TEMPLATE);
       ("prepend_backwards", ABool true);
       ("__init__", AMethod);
       ("console_line", AMethod);
       ("forwards_code", AMethod);
       ("backwards_code", AMethod)]
  | DeleteUnique =>
      [("prepend_forwards", ABool true);
       ("prepend_backwards", ABool false);
       ("console_line", AMethod);
       ("forwards_code", AMethod);
       ("backwards_code", AMethod)]
  | AddIndex =>
      [("FORWARDS_TEMPLATE", AStr AddIndex_FORWARDS_TEMPLATE);
       ("BACKWARDS_TEMPLATE", AStr AddIndex_BACKWARDS_TEMPLATE);
       ("UPDATE_TEMPLATE", AStr AddIndex_UPDATE_TEMPLATE);
       ("prepend_backwards", ABool true);
       ("__init__", AMethod);
       ("console_line", AMethod);
       ("forwards_code", AMethod);
       ("backwards_code", AMethod)]
  | DeleteIndex =>
      [("console_line", AMethod);
       ("forwards_code", AMethod);
       ("backwards_code", AMethod)]
  | UpdateIndex =>
      [("console_line", AMethod);
       ("forwards_code", AMethod);
       ("backwards_code", AMethod)]
  end.

(** The bases named in each [class] statement ([object] is left out: it
    binds none of the names the module looks up). *)
Definition bases (c : PyClass) : list PyClass :=
  match c with
  | Action | _NullIssuesField => []
  | AddModel | AddUnique | AddIndex => [Action]
  | DeleteModel => [AddModel]
  | AddField | ChangeField => [Action; _NullIssuesField]
  | DeleteField => [AddField]
  | DeleteUnique => [AddUnique]
  | DeleteIndex | UpdateIndex => [AddIndex]
  end.

(** The linearisation of the hierarchy: the class, then the linearisations
    of its bases from left to right, each class once. No class of the
    module is more than three steps away from a root. *)
Fixpoint linearise (depth : nat) (c : PyClass) : list PyClass :=
  match depth with
  | O => [c]
  | S d => c :: concat (map (linearise d) (bases c))
  end.

Definition mro (c : PyClass) : list PyClass :=
  remove_dups (linearise 3 c).

Fixpoint assoc {A} (k : string) (l : list (string * A)) : option A :=
  match l with
  | [] => None
  | (k', v) :: rest => if String.eqb k' k then Some v else assoc k rest
  end.

(** The first class of the resolution order that binds [name], with what
    it binds it to. *)
Fixpoint lookup_in (cs : list PyClass) (name : string)
  : option (PyClass * ClassAttr) :=
  match cs with
  | [] => None
  | c :: rest =>
      match assoc name (class_dict c) with
      | Some a => Some (c, a)
      | None => lookup_in rest name
      end
  end.

Definition class_getattr (c : PyClass) (name : string)
  : option (PyClass * ClassAttr) :=
  lookup_in (mro c) name.

(** ** Instances *)

(** The attributes [__init__] sets that differ between the families of
    actions. *)
Inductive Payload : Type :=
| ModelAttrs (model_def : list (string * Triple))
| FieldAttrs (field : Field) (field_def : Triple)
| ChangeAttrs (old_field new_field : Field) (old_def new_def : Triple)
| FieldsAttrs (fields : list Field).

(** An instance: its class, the attributes every [__init__] sets, the
    attributes of its family, and the entries of the instance dict that
    shadow a class attribute ([None] while the name is unset on the
    instance). *)
Record Obj : Type := {
  cls : PyClass;
  app_name : string;
  model : Model;
  model_class_name : string;
  model_type : string;
  model_name : string;
  payload : Payload;
  self_null_reason : option string;
  self_issue_with_backward_migration : option bool;
  self_irreversible : option bool
}.

Definition set_null_reason (v : string) (self : Obj) : Obj :=
  {| cls := cls self; app_name := app_name self; model := model self;
     model_class_name := model_class_name self; model_type := model_type self;
     model_name := model_name self; payload := payload self;
     self_null_reason := Some v;
     self_issue_with_backward_migration := self_issue_with_backward_migration self;
     self_irreversible := self_irreversible self |}.

Definition set_issue_with_backward_migration (v : bool) (self : Obj) : Obj :=
  {| cls := cls self; app_name := app_name self; model := model self;
     model_class_name := model_class_name self; model_type := model_type self;
     model_name := model_name self; payload := payload self;
     self_null_reason := self_null_reason self;
     self_issue_with_backward_migration := Some v;
     self_irreversible := self_irreversible self |}.

Definition set_irreversible (v : bool) (self : Obj) : Obj :=
  {| cls := cls self; app_name := app_name self; model := model self;
     model_class_name := model_class_name self; model_type := model_type self;
     model_name := model_name self; payload := payload self;
     self_null_reason := self_null_reason self;
     self_issue_with_backward_migration := self_issue_with_backward_migration self;
     self_irreversible := Some v |}.

(** The same attributes seen as an instance of another class. *)
Definition as_class (c : PyClass) (self : Obj) : Obj :=
  {| cls := c; app_name := app_name self; model := model self;
     model_class_name := model_class_name self; model_type := model_type self;
     model_name := model_name self; payload := payload self;
     self_null_reason := self_null_reason self;
     self_issue_with_backward_migration := self_issue_with_backward_migration self;
     self_irreversible := self_irreversible self |}.

(** Attribute lookup: the instance dict first, then the classes of the
    resolution order. *)
Definition getattr_bool (inst : option bool) (c : PyClass) (attr : string)
  : Res bool :=
  match inst with
  | Some b => Ret b
  | None =>
      match class_getattr c attr with
      | Some (_, ABool b) => Ret b
      | Some _ => Err (TypeError attr)
      | None => Err (AttributeError attr)
      end
  end.

Definition getattr_str (inst : option string) (c : PyClass) (attr : string)
  : Res string :=
  match inst with
  | Some s => Ret s
  | None =>
      match class_getattr c attr with
      | Some (_, AStr s) => Ret s
      | Some _ => Err (TypeError attr)
      | None => Err (AttributeError attr)
      end
  end.

(** The class whose body defines the method [attr] that a call on an
    instance of [c] runs. *)
Definition getattr_method (c : PyClass) (attr : string) : Res PyClass :=
  match class_getattr c attr with
  | Some (owner, AMethod) => Ret owner
  | Some _ => Err (TypeError attr)
  | None => Err (AttributeError attr)
  end.

Definition prepend_forwards (self : Obj) : Res bool :=
  getattr_bool None (cls self) "prepend_forwards".

Definition prepend_backwards (self : Obj) : Res bool :=
  getattr_bool None (cls self) "prepend_backwards".

Definition issue_with_backward_migration (self : Obj) : Res bool :=
  getattr_bool (self_issue_with_backward_migration self) (cls self)
    "issue_with_backward_migration".

Definition irreversible (self : Obj) : Res bool :=
  getattr_bool (self_irreversible self) (cls self) "irreversible".

Definition null_reason (self : Obj) : Res string :=
  getattr_str (self_null_reason self) (cls self) "null_reason".

Definition template (self : Obj) (attr : string) : Res string :=
  getattr_str None (cls self) attr.

Definition self_model_def (self : Obj) : Res (list (string * Triple)) :=
  match payload self with
  | ModelAttrs d => Ret d
  | _ => Err (AttributeError "model_def")
  end.

Definition self_field (self : Obj) : Res Field :=
  match payload self with
  | FieldAttrs f _ => Ret f
  | _ => Err (AttributeError "field")
  end.

Definition self_field_def (self : Obj) : Res Triple :=
  match payload self with
  | FieldAttrs _ d => Ret d
  | _ => Err (AttributeError "field_def")
  end.

Definition self_old_field (self : Obj) : Res Field :=
  match payload self with
  | ChangeAttrs f _ _ _ => Ret f
  | _ => Err (AttributeError "old_field")
  end.

Definition self_new_field (self : Obj) : Res Field :=
  match payload self with
  | ChangeAttrs _ f _ _ => Ret f
  | _ => Err (AttributeError "new_field")
  end.

Definition self_old_def (self : Obj) : Res Triple :=
  match payload self with
  | ChangeAttrs _ _ d _ => Ret d
  | _ => Err (AttributeError "old_def")
  end.

Definition self_new_def (self : Obj) : Res Triple :=
  match payload self with
  | ChangeAttrs _ _ _ d => Ret d
  | _ => Err (AttributeError "new_def")
  end.

Definition self_fields (self : Obj) : Res (list Field) :=
  match payload self with
  | FieldsAttrs fs => Ret fs
  | _ => Err (AttributeError "fields")
  end.

(** ** The console, the store and the monad of the constructors *)

(** What a run leaves on the console, in order, together with the calls of
    the dialog methods (kept to tell a call that returns at once from no
    call at all). *)
Inductive Event : Type :=
| Printed (line : string)
| Prompted (prompt : string)
| Called (method : string).

(** The lines still to be read from standard input, the console so far,
    and the store of the [kwargs] dicts. *)
Record World : Type := {
  stdin : list string;
  trace : list Event;
  heap : loc -> gmap string string
}.

(** How a computation ends: with a value, with [sys.exit(code)], or with an
    exception. *)
Inductive Outcome (A : Type) : Type :=
| Done (a : A) (w : World)
| Exited (code : Z) (w : World)
| Raised (e : Exc) (w : World).
Arguments Done {A} a w.
Arguments Exited {A} code w.
Arguments Raised {A} e w.

Definition M (A : Type) : Type := World -> Outcome A.

#[export] Instance M_ret : MRet M := fun A a w => Done a w.
#[export] Instance M_bind : MBind M := fun A B k m w =>
  match m w with
  | Done a w' => k a w'
  | Exited c w' => Exited c w'
  | Raised e w' => Raised e w'
  end.

Definition lift {A} (r : Res A) : M A := fun w =>
  match r with
  | Ret a => Done a w
  | Err e => Raised e w
  end.

Definition log (e : Event) (w : World) : World :=
  {| stdin := stdin w; trace := trace w ++ [e]; heap := heap w |}.

Definition print (line : string) : M unit := fun w =>
  Done tt (log (Printed line) w).

Definition called (method : string) : M unit := fun w =>
  Done tt (log (Called method) w).

Definition sys_exit {A} (code : Z) : M A := fun w => Exited code w.

(** The world after [raw_input(prompt)] has read a line: the prompt is on
    the console and [rest] is what is left of standard input. *)
Definition consumed (prompt : string) (rest : list string) (w : World) : World :=
  {| stdin := rest; trace := trace w ++ [Prompted prompt]; heap := heap w |}.

(** [raw_input(prompt)]: [EOFError] at the end of input. *)
Definition raw_input (prompt : string) : M string := fun w =>
  match stdin w with
  | [] => Raised EOFError (log (Prompted prompt) w)
  | line :: rest => Done line (consumed prompt rest w)
  end.

(** [d[key] = value] on the dict at address [l]. *)
Definition store (l : loc) (key value : string) (h : loc -> gmap string string)
  : loc -> gmap string string :=
  fun l' => if decide (l' = l) then <[key := value]> (h l) else h l'.

Definition setitem (l : loc) (key value : string) : M unit := fun w =>
  Done tt {| stdin := stdin w; trace := trace w;
             heap := store l key value (heap w) |}.

(** What [eval(code, {}, {'datetime': datetime})] does with a line of user
    code: a value (kept as its [repr]), one of the two exceptions the dialog
    catches (with their message), any other exception, or [SystemExit]. The
    interpreter is a parameter of the development. *)
Inductive EvalResult : Type :=
| Evaluated (value : string)
| EvalSyntaxError (msg : string)
| EvalNameError (msg : string)
| EvalRaised (e : Exc)
| EvalExited (code : Z).

Fixpoint mapM_res {A B} (f : A -> Res B) (l : list A) : Res (list B) :=
  match l with
  | [] => Ret []
  | x :: rest => y ← f x; ys ← mapM_res f rest; Ret (y :: ys)
  end.

(** A call [self.attr(arg)] of a method that no class body of the module
    defines: the attribute lookup comes first, then the argument. *)
Definition call_undefined {A B} (self : Obj) (attr : string) (arg : Res A)
  : Res B :=
  _ ← getattr_method (cls self) attr;
  _ ← arg;
  Err (TypeError attr).

(** The block every [__init__] of the module repeats: the kind and the
    name of the model. *)
Definition classify_model (m : Model) : Res (string * string) :=
  if issubclass_Vertex m then Ret ("vertex", get_element_type m)
  else if issubclass_Edge m then Ret ("edge", get_label m)
  else Err (MogwaiMigrationException (m_str m +:+ " is Not a Vertex or Edge")).

Definition new_object (c : PyClass) (app : string) (m : Model)
    (kind : string * string) (p : Payload) : Obj :=
  {| cls := c; app_name := app; model := m; model_class_name := m_name m;
     model_type := fst kind; model_name := snd kind; payload := p;
     self_null_reason := None;
     self_issue_with_backward_migration := None;
     self_irreversible := None |}.

(** ** The classes *)

(** The dict [{'model_class_name': ..., 'model_name': ..., 'model_type': ...}]
    that starts most of the template renderings. *)
Definition model_entries (self : Obj) : list (string * PyVal) :=
  [("model_class_name", VStr (model_class_name self));
   ("model_name", VStr (model_name self));
   ("model_type", VStr (model_type self))].

Module Action.

Definition forwards_code (self : Obj) : Res string := Err NotImplementedError.

Definition backwards_code (self : Obj) : Res string := Err NotImplementedError.

Definition console_line (self : Obj) : Res string := Err NotImplementedError.

End Action.

Module AddModel.
Section WithRepr.
Variable repr_text : string -> string.

Definition __init__ (c : PyClass) (model : Model)
    (model_def : list (string * Triple)) (app_name : string) : M Obj :=
  kind ← lift (classify_model model);
  mret (new_object c app_name model kind (ModelAttrs model_def)).

Definition console_line (self : Obj) : Res string :=
  format_args repr_text " + Added model %s.%s"
    [VStr (app_name self); VStr (model_name self)].

Definition forwards_code (self : Obj) : Res string :=
  defs ← call_undefined (B := list (string * string)) self "triples_to_defs"
           (self_model_def self);
  items ← mapM_res (fun '(name, defn) =>
                      format_args repr_text "(%r, %s)" [VStr name; VStr defn])
                   defs;
  let field_defs := join ("," +:+ nl +:+ "            ") items +:+ "," in
  t ← template self "FORWARDS_TEMPLATE";
  format_map repr_text t
    [("model_type", VStr (model_type self));
     ("model_class_name", VStr (model_class_name self));
     ("model_name", VStr (model_name self));
     ("model_type", VStr (model_type self));
     ("app_label", VStr (app_name self));
     ("field_defs", VStr field_defs)].

Definition backwards_code (self : Obj) : Res string :=
  t ← template self "BACKWARDS_TEMPLATE";
  format_map repr_text t (model_entries self).

End WithRepr.
End AddModel.

Module DeleteModel.
Section WithRepr.
Variable repr_text : string -> string.

Definition console_line (self : Obj) : Res string :=
  format_args repr_text " - Deleted model %s.%s"
    [VStr (app_name self); VStr (model_class_name self)].

Definition forwards_code (self : Obj) : Res string :=
  AddModel.backwards_code repr_text self.

Definition backwards_code (self : Obj) : Res string :=
  AddModel.forwards_code repr_text self.

End WithRepr.
End DeleteModel.

Module _NullIssuesField.
Section WithInterpreter.
Variable repr_text : string -> string.
Variable py_eval : string -> EvalResult.

(** The [while True] loop of [add_one_time_default]: one line of standard
    input per round. *)
Fixpoint read_code (lines : list string) (w : World) : Outcome string :=
  match lines with
  | [] => Raised EOFError (log (Prompted " >>> ") w)
  | code :: rest =>
      let w1 := consumed " >>> " rest w in
      if String.eqb code EmptyString then
        read_code rest
          (log (Printed " ! Please enter some code, or 'exit' (with no quotes) to exit.") w1)
      else if String.eqb code "exit" then Exited 1 w1
      else match py_eval code with
           | Evaluated result => Done result w1
           | EvalSyntaxError e | EvalNameError e =>
               read_code rest (log (Printed (" ! Invalid input: " +:+ e)) w1)
           | EvalRaised e => Raised e w1
           | EvalExited status => Exited status w1
           end
  end.

Definition input_code : M string := fun w => read_code (stdin w) w.

Definition add_one_time_default (self : Obj) (field : Field) (field_def : Triple)
  : M unit :=
  called "add_one_time_default";;
  print " ? Please enter Python code for your one-off default value.";;
  print " ? The datetime module is available, so you can do e.g. datetime.date.today()";;
  result ← input_code;
  (* the assignment of the result to field_def[2]['default'] is commented
     out in the source *)
  mret tt.

(** The [while True] loop of [deal_with_not_null_no_default]. *)
Fixpoint read_choice (issue : bool) (lines : list string) (w : World)
  : Outcome string :=
  match lines with
  | [] => Raised EOFError (log (Prompted " ? Please select a choice: ") w)
  | choice :: rest =>
      let w1 := consumed " ? Please select a choice: " rest w in
      if String.eqb choice "1" then Exited 1 w1
      else if String.eqb choice "2" then Done choice w1
      else if String.eqb choice "3" && issue then Done choice w1
      else read_choice issue rest (log (Printed " ! Invalid choice.") w1)
  end.

Definition input_choice (issue : bool) : M string := fun w =>
  read_choice issue (stdin w) w.

Definition deal_with_not_null_no_default (self : Obj) (field : Field)
    (field_def : Triple) : M Obj :=
  called "deal_with_not_null_no_default";;
  if isinstance_String_Text field && blank field then
    setitem (kwargs field_def) "default" (repr_text EmptyString);;
    mret self
  else
    line ← lift (format_args repr_text
                   " ? The field '%s.%s' does not have a default specified, yet is NOT NULL."
                   [VStr (model_class_name self); VStr (name field)]);
    print line;;
    reason ← lift (null_reason self);
    line ← lift (format_args repr_text
                   " ? Since you are %s, you MUST specify a default" [VStr reason]);
    print line;;
    print " ? value to use for existing rows. Would you like to:";;
    issue ← lift (issue_with_backward_migration self);
    print (" ?  1. Quit now" +:+
           (if issue then "."
            else ", and add a default to the field in models.py"));;
    print " ?  2. Specify a one-off value to use for existing columns now";;
    (if issue
     then print " ?  3. Disable the backwards migration by raising an exception; you can edit the migration to fix it later"
     else mret tt);;
    choice ← input_choice issue;
    if String.eqb choice "2" then
      add_one_time_default self field field_def;;
      mret self
    else if String.eqb choice "3" then
      mret (set_irreversible true self)
    else mret self.

Definition irreversable_code (self : Obj) (field : Field) : Res string :=
  t ← template self "IRREVERSIBLE_TEMPLATE";
  format_map repr_text t
    (model_entries self ++
     [("field_name", VStr (name field));
      ("field_column", VStr (column field))]).

End WithInterpreter.
End _NullIssuesField.

Module AddField.
Section WithInterpreter.
Variable repr_text : string -> string.
Variable py_eval : string -> EvalResult.

Definition __init__ (c : PyClass) (model : Model) (field : Field)
    (field_def : Triple) (app_name : string) : M Obj :=
  kind ← lift (classify_model model);
  let self := new_object c app_name model kind (FieldAttrs field field_def) in
  (* See if they've made property required but also have no default *)
  let is_required := required field in
  let default := bool_decide (default field ≠ None) in
  if negb is_required && negb default then
    _NullIssuesField.deal_with_not_null_no_default repr_text py_eval
      self field field_def
  else mret self.

Definition console_line (self : Obj) : Res string :=
  field ← self_field self;
  format_args repr_text " + Added field %s on %s.%s"
    [VStr (name field); VStr (app_name self); VStr (model_class_name self)].

Definition forwards_code (self : Obj) : Res string :=
  t ← template self "FORWARDS_TEMPLATE";
  field ← self_field self;
  field_def ← call_undefined (B := string) self "triple_to_def"
                (self_field_def self);
  format_map repr_text t
    (model_entries self ++
     [("field_name", VStr (name field));
      ("field_column", VStr (column field));
      ("field_def", VStr field_def)]).

Definition backwards_code (self : Obj) : Res string :=
  t ← template self "BACKWARDS_TEMPLATE";
  field ← self_field self;
  format_map repr_text t
    (model_entries self ++
     [("field_name", VStr (name field));
      ("field_column", VStr (column field))]).

End WithInterpreter.
End AddField.

Module DeleteField.
Section WithRepr.
Variable repr_text : string -> string.

Definition console_line (self : Obj) : Res string :=
  field ← self_field self;
  format_args repr_text " - Deleted field %s on %s.%s"
    [VStr (name field); VStr (app_name self); VStr (model_class_name self)].

Definition forwards_code (self : Obj) : Res string :=
  AddField.backwards_code repr_text self.

Definition backwards_code (self : Obj) : Res string :=
  flag ← irreversible self;
  if negb flag then AddField.forwards_code repr_text self
  else
    field ← self_field self;
    notice ← _NullIssuesField.irreversable_code repr_text self field;
    code ← AddField.forwards_code repr_text self;
    Ret (notice +:+ code).

End WithRepr.
End DeleteField.

Module ChangeField.
Section WithInterpreter.
Variable repr_text : string -> string.
Variable py_eval : string -> EvalResult.

Definition __init__ (c : PyClass) (model : Model) (old_field new_field : Field)
    (old_def new_def : Triple) (app_name : string) : M Obj :=
  kind ← lift (classify_model model);
  let self := new_object c app_name model kind
                (ChangeAttrs old_field new_field old_def new_def) in
  (* See if they've changed a not-null field to be null *)
  let new_default := bool_decide (default new_field ≠ None) in
  let old_default := bool_decide (default old_field ≠ None) in
  self ← (if required old_field && negb (required new_field) && negb new_default
          then
            _NullIssuesField.deal_with_not_null_no_default repr_text py_eval
              self new_field new_def
          else mret self);
  if negb (required old_field) && required new_field && negb old_default then
    let self := set_null_reason "making this field nullable" self in
    let self := set_issue_with_backward_migration true self in
    _NullIssuesField.deal_with_not_null_no_default repr_text py_eval
      self old_field old_def
  else mret self.

Definition console_line (self : Obj) : Res string :=
  new_field ← self_new_field self;
  format_args repr_text " ~ Changed field %s on %s.%s"
    [VStr (name new_field); VStr (app_name self); VStr (model_class_name self)].

Definition _code (self : Obj) (old_field new_field : Field) (new_def : Triple)
  : Res string :=
  let output := EmptyString in
  self_old ← self_old_field self;
  self_new ← self_new_field self;
  output ← (if negb (String.eqb (column self_old) (column self_new)) then
              t ← template self "RENAME_TEMPLATE";
              rename ← format_map repr_text t
                (model_entries self ++
                 [("field_name", VStr (name new_field));
                  ("old_column", VStr (column old_field));
                  ("new_column", VStr (column new_field))]);
              Ret (output +:+ rename)
            else Ret output);
  t ← template self "FORWARDS_TEMPLATE";
  field_def ← call_undefined (B := string) self "triple_to_def" (Ret new_def);
  alter ← format_map repr_text t
    (model_entries self ++
     [("field_name", VStr (name new_field));
      ("field_column", VStr (column new_field));
      ("field_def", VStr field_def)]);
  Ret (output +:+ alter).

Definition forwards_code (self : Obj) : Res string :=
  old_field ← self_old_field self;
  new_field ← self_new_field self;
  new_def ← self_new_def self;
  _code self old_field new_field new_def.

Definition backwards_code (self : Obj) : Res string :=
  new_field ← self_new_field self;
  old_field ← self_old_field self;
  old_def ← self_old_def self;
  change_code ← _code self new_field old_field old_def;
  flag ← irreversible self;
  if negb flag then Ret change_code
  else
    old_field ← self_old_field self;
    notice ← _NullIssuesField.irreversable_code repr_text self old_field;
    Ret (notice +:+ change_code).

End WithInterpreter.
End ChangeField.

(** The dict both [AddUnique] and [AddIndex] render their templates with. *)
Definition fields_entries (self : Obj) (fields : list Field)
  : list (string * PyVal) :=
  model_entries self ++
  [("fields", VList (map column fields));
   ("field_names", VList (map name fields))].

Module AddUnique.
Section WithRepr.
Variable repr_text : string -> string.

Definition __init__ (c : PyClass) (model : Model) (fields : list Field)
    (app_name : string) : M Obj :=
  kind ← lift (classify_model model);
  mret (new_object c app_name model kind (FieldsAttrs fields)).

Definition console_line (self : Obj) : Res string :=
  fields ← self_fields self;
  format_args repr_text " + Added unique constraint for %s on %s.%s"
    [VList (map name fields); VStr (app_name self);
     VStr (model_class_name self)].

Definition forwards_code (self : Obj) : Res string :=
  t ← template self "FORWARDS_TEMPLATE";
  fields ← self_fields self;
  format_map repr_text t (fields_entries self fields).

Definition backwards_code (self : Obj) : Res string :=
  t ← template self "BACKWARDS_TEMPLATE";
  fields ← self_fields self;
  format_map repr_text t (fields_entries self fields).

End WithRepr.
End AddUnique.

Module DeleteUnique.
Section WithRepr.
Variable repr_text : string -> string.

Definition console_line (self : Obj) : Res string :=
  fields ← self_fields self;
  format_args repr_text " - Deleted unique constraint for %s on %s.%s"
    [VList (map name fields); VStr (app_name self);
     VStr (model_class_name self)].

Definition forwards_code (self : Obj) : Res string :=
  AddUnique.backwards_code repr_text self.

Definition backwards_code (self : Obj) : Res string :=
  AddUnique.forwards_code repr_text self.

End WithRepr.
End DeleteUnique.

Module AddIndex.
Section WithRepr.
Variable repr_text : string -> string.

Definition __init__ (c : PyClass) (model : Model) (fields : list Field)
    (app_name : string) : M Obj :=
  kind ← lift (classify_model model);
  mret (new_object c app_name model kind (FieldsAttrs fields)).

Definition console_line (self : Obj) : Res string :=
  fields ← self_fields self;
  format_args repr_text " + Added index for %s on %s.%s"
    [VList (map name fields); VStr (app_name self);
     VStr (model_class_name self)].

Definition forwards_code (self : Obj) : Res string :=
  t ← template self "FORWARDS_TEMPLATE";
  fields ← self_fields self;
  format_map repr_text t (fields_entries self fields).

Definition backwards_code (self : Obj) : Res string :=
  t ← template self "BACKWARDS_TEMPLATE";
  fields ← self_fields self;
  format_map repr_text t (fields_entries self fields).

End WithRepr.
End AddIndex.

Module DeleteIndex.
Section WithRepr.
Variable repr_text : string -> string.

Definition console_line (self : Obj) : Res string :=
  fields ← self_fields self;
  format_args repr_text " + Deleted index for %s on %s.%s"
    [VList (map name fields); VStr (app_name self);
     VStr (model_class_name self)].

Definition forwards_code (self : Obj) : Res string :=
  AddIndex.backwards_code repr_text self.

Definition backwards_code (self : Obj) : Res string :=
  AddIndex.forwards_code repr_text self.

End WithRepr.
End DeleteIndex.

Module UpdateIndex.
Section WithRepr.
Variable repr_text : string -> string.

Definition console_line (self : Obj) : Res string :=
  fields ← self_fields self;
  format_args repr_text " + Updated index for %s on %s.%s"
    [VList (map name fields); VStr (app_name self);
     VStr (model_class_name self)].

Definition forwards_code (self : Obj) : Res string :=
  t ← template self "UPDATE_TEMPLATE";
  fields ← self_fields self;
  format_map repr_text t (fields_entries self fields).

Definition backwards_code (self : Obj) : Res string :=
  t ← template self "UPDATE_TEMPLATE";
  fields ← self_fields self;
  format_map repr_text t (fields_entries self fields).

End WithRepr.
End UpdateIndex.

(** ** Method calls and instantiation *)

Section Calls.
Variable repr_text : string -> string.
Variable py_eval : string -> EvalResult.

(** [self.forwards_code()]: the body of the first class of the
    resolution order that defines the method. *)
Definition forwards_code (self : Obj) : Res string :=
  owner ← getattr_method (cls self) "forwards_code";
  match owner with
  | Action => Action.forwards_code self
  | AddModel => AddModel.forwards_code repr_text self
  | DeleteModel => DeleteModel.forwards_code repr_text self
  | AddField => AddField.forwards_code repr_text self
  | DeleteField => DeleteField.forwards_code repr_text self
  | ChangeField => ChangeField.forwards_code repr_text self
  | AddUnique => AddUnique.forwards_code repr_text self
  | DeleteUnique => DeleteUnique.forwards_code repr_text self
  | AddIndex => AddIndex.forwards_code repr_text self
  | DeleteIndex => DeleteIndex.forwards_code repr_text self
  | UpdateIndex => UpdateIndex.forwards_code repr_text self
  | _NullIssuesField => Err (AttributeError "forwards_code")
  end.

(** [self.backwards_code()]. *)
Definition backwards_code (self : Obj) : Res string :=
  owner ← getattr_method (cls self) "backwards_code";
  match owner with
  | Action => Action.backwards_code self
  | AddModel => AddModel.backwards_code repr_text self
  | DeleteModel => DeleteModel.backwards_code repr_text self
  | AddField => AddField.backwards_code repr_text self
  | DeleteField => DeleteField.backwards_code repr_text self
  | ChangeField => ChangeField.backwards_code repr_text self
  | AddUnique => AddUnique.backwards_code repr_text self
  | DeleteUnique => DeleteUnique.backwards_code repr_text self
  | AddIndex => AddIndex.backwards_code repr_text self
  | DeleteIndex => DeleteIndex.backwards_code repr_text self
  | UpdateIndex => UpdateIndex.backwards_code repr_text self
  | _NullIssuesField => Err (AttributeError "backwards_code")
  end.

(** [self.console_line()]. *)
Definition console_line (self : Obj) : Res string :=
  owner ← getattr_method (cls self) "console_line";
  match owner with
  | Action => Action.console_line self
  | AddModel => AddModel.console_line repr_text self
  | DeleteModel => DeleteModel.console_line repr_text self
  | AddField => AddField.console_line repr_text self
  | DeleteField => DeleteField.console_line repr_text self
  | ChangeField => ChangeField.console_line repr_text self
  | AddUnique => AddUnique.console_line repr_text self
  | DeleteUnique => DeleteUnique.console_line repr_text self
  | AddIndex => AddIndex.console_line repr_text self
  | DeleteIndex => DeleteIndex.console_line repr_text self
  | UpdateIndex => UpdateIndex.console_line repr_text self
  | _NullIssuesField => Err (AttributeError "console_line")
  end.

(** [Action.add_forwards] and [Action.add_backwards], which no subclass
    overrides. The list is the caller's; the result is its content after
    the call, and a raised exception leaves it as it was. *)
Definition add_forwards (self : Obj) (forwards : list string)
  : Res (list string) :=
  flag ← prepend_forwards self;
  if (flag : bool) then
    code ← forwards_code self;
    Ret (code :: forwards)
  else
    code ← forwards_code self;
    Ret (forwards ++ [code]).

Definition add_backwards (self : Obj) (backwards : list string)
  : Res (list string) :=
  flag ← prepend_backwards self;
  if (flag : bool) then
    code ← backwards_code self;
    Ret (code :: backwards)
  else
    code ← backwards_code self;
    Ret (backwards ++ [code]).

(** [c(model, ..., app_name)]: the [__init__] the class resolves to, run
    on the arguments of its family. A class without [__init__] falls back
    on [object]'s, which takes no arguments. *)
Definition new (c : PyClass) (model : Model) (args : Payload)
    (app_name : string) : M Obj :=
  match class_getattr c "__init__", args with
  | Some (AddModel, AMethod), ModelAttrs model_def =>
      AddModel.__init__ c model model_def app_name
  | Some (AddField, AMethod), FieldAttrs field field_def =>
      AddField.__init__ repr_text py_eval c model field field_def app_name
  | Some (ChangeField, AMethod), ChangeAttrs old_field new_field old_def new_def =>
      ChangeField.__init__ repr_text py_eval c model old_field new_field
        old_def new_def app_name
  | Some (AddUnique, AMethod), FieldsAttrs fields =>
      AddUnique.__init__ c model fields app_name
  | Some (AddIndex, AMethod), FieldsAttrs fields =>
      AddIndex.__init__ c model fields app_name
  | _, _ => lift (Err (TypeError "__init__"))
  end.

End Calls.

(** ** Sample data *)

Definition quote_repr (s : string) : string := "u'" +:+ s +:+ "'".

(** A toy evaluator: [42] evaluates to itself, [x] is an unbound name, [(]
    does not parse and anything else divides by zero. *)
Definition toy_eval (code : string) : EvalResult :=
  if String.eqb code "42" then Evaluated "42"
  else if String.eqb code "x" then EvalNameError "name 'x' is not defined"
  else if String.eqb code "(" then EvalSyntaxError "unexpected EOF while parsing"
  else EvalRaised (UserCodeError "ZeroDivisionError").

Definition person : Model :=
  {| m_name := "Person"; m_str := "<class 'app.models.Person'>";
     m_base := VertexBase; get_element_type := "person"; get_label := "person" |}.

Definition knows : Model :=
  {| m_name := "Knows"; m_str := "<class 'app.models.Knows'>";
     m_base := EdgeBase; get_element_type := "knows"; get_label := "knows_label" |}.

Definition plain : Model :=
  {| m_name := "Plain"; m_str := "<class 'app.models.Plain'>";
     m_base := OtherBase; get_element_type := "plain"; get_label := "plain" |}.

Definition age : Field :=
  {| name := "age"; column := "age_col"; required := false; default := None;
     property_class := OtherProperty; blank := false |}.

Definition years : Field :=
  {| name := "years"; column := "years_col"; required := true; default := None;
     property_class := OtherProperty; blank := false |}.

Definition nick : Field :=
  {| name := "nick"; column := "nick"; required := false; default := None;
     property_class := String_; blank := true |}.

Definition age_def : Triple :=
  {| path := "mogwai.properties.Integer"; args := []; kwargs := 0 |}.

Definition years_def : Triple :=
  {| path := "mogwai.properties.Integer"; args := []; kwargs := 1 |}.

Definition world0 (input : list string) : World :=
  {| stdin := input; trace := []; heap := fun _ => ∅ |}.

Definition sample (c : PyClass) (m : Model) (kind : string * string) (p : Payload)
  : Obj :=
  new_object c "app" m kind p.

#[export] Instance Event_eq_dec : EqDecision Event.
Proof. solve_decision. Defined.

Definition world_of {A} (o : Outcome A) : World :=
  match o with
  | Done _ w | Exited _ w | Raised _ w => w
  end.

(** Whether a run called [deal_with_not_null_no_default]. *)
Definition dialog_invoked {A} (o : Outcome A) : bool :=
  bool_decide (Called "deal_with_not_null_no_default" ∈ trace (world_of o)).

(** ** The vocabulary of the properties *)

Section Vocabulary.
Variable repr_text : string -> string.
Variable py_eval : string -> EvalResult.

(** What an [UpdateIndex] renders, in either direction. *)
Definition update_code (self : Obj) : Res string :=
  fields ← self_fields self;
  format_map repr_text AddIndex_UPDATE_TEMPLATE (fields_entries self fields).

Definition choice_prompt : string := " ? Please select a choice: ".
Definition code_prompt : string := " >>> ".

(** The world with more on the console. *)
Definition emit (es : list Event) (w : World) : World :=
  {| stdin := stdin w; trace := trace w ++ es; heap := heap w |}.

(** The world once the line before [rest] has been read at [prompt], the
    rounds before it having left [skipped] on the console. *)
Definition answered (prompt : string) (skipped : list Event) (rest : list string)
    (w : World) : World :=
  {| stdin := rest; trace := trace w ++ skipped ++ [Prompted prompt];
     heap := heap w |}.

(** What the dialog prints before it asks for a choice. *)
Definition menu (self : Obj) (field : Field) (reason : string) (issue : bool)
  : list Event :=
  [Called "deal_with_not_null_no_default";
   Printed (" ? The field '" +:+ model_class_name self +:+ "." +:+ name field +:+
            "' does not have a default specified, yet is NOT NULL.");
   Printed (" ? Since you are " +:+ reason +:+ ", you MUST specify a default");
   Printed " ? value to use for existing rows. Would you like to:";
   Printed (" ?  1. Quit now" +:+
            (if issue then "."
             else ", and add a default to the field in models.py"));
   Printed " ?  2. Specify a one-off value to use for existing columns now"] ++
  (if issue
   then [Printed " ?  3. Disable the backwards migration by raising an exception; you can edit the migration to fix it later"]
   else []).

(** A line the choice loop does not accept. *)
Definition rejected (issue : bool) (line : string) : bool :=
  negb (String.eqb line "1") && negb (String.eqb line "2") &&
  negb (String.eqb line "3" && issue).

(** What the choice loop leaves on the console for the lines it rejects. *)
Definition reprompts (junk : list string) : list Event :=
  flat_map (λ _, [Prompted choice_prompt; Printed " ! Invalid choice."]) junk.

(** What [add_one_time_default] prints before it asks for code. *)
Definition code_intro : list Event :=
  [Called "add_one_time_default";
   Printed " ? Please enter Python code for your one-off default value.";
   Printed " ? The datetime module is available, so you can do e.g. datetime.date.today()"].

(** What the code loop prints for a line it asks again after: the empty
    line, and code that raises [SyntaxError] or [NameError]. [None] for the
    lines that end the loop. *)
Definition refusal (line : string) : option string :=
  if String.eqb line EmptyString
  then Some " ! Please enter some code, or 'exit' (with no quotes) to exit."
  else if String.eqb line "exit" then None
  else match py_eval line with
       | EvalSyntaxError e | EvalNameError e => Some (" ! Invalid input: " +:+ e)
       | Evaluated _ | EvalRaised _ | EvalExited _ => None
       end.

Definition refused (line : string) : bool := bool_decide (refusal line ≠ None).

Definition refusals (junk : list string) : list Event :=
  flat_map (λ line, match refusal line with
                    | Some msg => [Prompted code_prompt; Printed msg]
                    | None => []
                    end) junk.

(** A line of code the loop accepts: it is not empty, it is not [exit], and
    it evaluates to a value. *)
Definition evaluates (code value : string) : Prop :=
  code ≠ EmptyString ∧ code ≠ "exit" ∧ py_eval code = Evaluated value.

(** A computation only ever adds to the console. *)
Definition grows {A} (m : M A) : Prop :=
  ∀ (w : World) (e : Event), e ∈ trace w → e ∈ trace (world_of (m w)).

(** The arguments a class is instantiated with are those of its family. *)
Definition family_ok (c : PyClass) (args : Payload) : bool :=
  match c, args with
  | (AddModel | DeleteModel), ModelAttrs _ => true
  | (AddField | DeleteField), FieldAttrs _ _ => true
  | ChangeField, ChangeAttrs _ _ _ _ => true
  | (AddUnique | DeleteUnique | AddIndex | DeleteIndex | UpdateIndex),
    FieldsAttrs _ => true
  | _, _ => false
  end.

(** Whether [__init__] enters the dialog on these arguments. *)
Definition asks (args : Payload) : bool :=
  match args with
  | FieldAttrs field _ =>
      negb (required field) && negb (bool_decide (default field ≠ None))
  | ChangeAttrs old_field new_field _ _ =>
      (required old_field && negb (required new_field) &&
       negb (bool_decide (default new_field ≠ None))) ||
      (negb (required old_field) && required new_field &&
       negb (bool_decide (default old_field ≠ None)))
  | _ => false
  end.

(** Two instances that agree on everything but the instance dict entries
    the dialog may set. *)
Definition same_core (a b : Obj) : Prop :=
  cls a = cls b ∧ app_name a = app_name b ∧ model a = model b ∧
  model_class_name a = model_class_name b ∧ model_type a = model_type b ∧
  model_name a = model_name b ∧ payload a = payload b.

(** The method a class's [forwards_code()] calls on [self] although no
    class of the hierarchy defines it, if any; likewise for
    [backwards_code()]. *)
Definition forwards_helper (c : PyClass) : option string :=
  match c with
  | AddModel => Some "triples_to_defs"
  | AddField | ChangeField => Some "triple_to_def"
  | _ => None
  end.

Definition backwards_helper (c : PyClass) : option string :=
  match c with
  | DeleteModel => Some "triples_to_defs"
  | DeleteField | ChangeField => Some "triple_to_def"
  | _ => None
  end.

(** A call that needs an undefined helper raises [AttributeError] on its
    name; one that needs none returns a string. *)
Definition outcome_with (helper : option string) (r : Res string) : Prop :=
  match helper with
  | Some h => r = Err (AttributeError h)
  | None => ∃ s, r = Ret s
  end.

End Vocabulary.

(** ** Concrete actions *)

Definition vertex_kind : string * string := ("vertex", "person").

Definition a_delete_index : Obj :=
  sample DeleteIndex person vertex_kind (FieldsAttrs [age]).

Definition an_update_index : Obj :=
  sample UpdateIndex person vertex_kind (FieldsAttrs [age; years]).

Definition an_add_model : Obj :=
  sample AddModel person vertex_kind (ModelAttrs [("age", age_def)]).

Definition a_delete_field : Obj :=
  sample DeleteField person vertex_kind (FieldAttrs age age_def).

Definition an_add_field : Obj :=
  sample AddField person vertex_kind (FieldAttrs age age_def).

Definition a_change_field : Obj :=
  set_issue_with_backward_migration true
    (set_null_reason "making this field nullable"
       (sample ChangeField person vertex_kind
          (ChangeAttrs age years age_def years_def))).

(** ** The vocabulary of the further properties *)

(** A computation leaves the store of the [kwargs] dicts as it found it. *)
Definition keeps_store {A} (m : M A) : Prop :=
  ∀ w : World, heap (world_of (m w)) = heap w.

(** The status a run ends the process with, if it does. *)
Definition exit_status {A} (o : Outcome A) : option Z :=
  match o with
  | Exited status _ => Some status
  | Done _ _ | Raised _ _ => None
  end.

(** Every field the constructor is given has a default (constructors
    that take no single field have none to ask about). *)
Definition all_defaulted (args : Payload) : bool :=
  match args with
  | FieldAttrs field _ => bool_decide (default field ≠ None)
  | ChangeAttrs old_field new_field _ _ =>
      bool_decide (default old_field ≠ None) &&
      bool_decide (default new_field ≠ None)
  | ModelAttrs _ | FieldsAttrs _ => true
  end.

(** The field definitions a constructor is given. *)
Definition field_defs (args : Payload) : list Triple :=
  match args with
  | FieldAttrs _ field_def => [field_def]
  | ChangeAttrs _ _ old_def new_def => [old_def; new_def]
  | ModelAttrs _ | FieldsAttrs _ => []
  end.

Section Renderings.
Variable repr_text : string -> string.

(** [" on <app>.<class>"], the end of most console lines. *)
Definition on_model (self : Obj) : string :=
  " on " +:+ app_name self +:+ "." +:+ model_class_name self.

(** The console line of each class of actions, written out. *)
Definition console_text (self : Obj) : option string :=
  match cls self, payload self with
  | AddModel, _ =>
      Some (" + Added model " +:+ app_name self +:+ "." +:+ model_name self)
  | DeleteModel, _ =>
      Some (" - Deleted model " +:+ app_name self +:+ "." +:+ model_class_name self)
  | AddField, FieldAttrs field _ =>
      Some (" + Added field " +:+ name field +:+ on_model self)
  | DeleteField, FieldAttrs field _ =>
      Some (" - Deleted field " +:+ name field +:+ on_model self)
  | ChangeField, ChangeAttrs _ new_field _ _ =>
      Some (" ~ Changed field " +:+ name new_field +:+ on_model self)
  | AddUnique, FieldsAttrs fields =>
      Some (" + Added unique constraint for " +:+
            repr_list repr_text (map name fields) +:+ on_model self)
  | DeleteUnique, FieldsAttrs fields =>
      Some (" - Deleted unique constraint for " +:+
            repr_list repr_text (map name fields) +:+ on_model self)
  | AddIndex, FieldsAttrs fields =>
      Some (" + Added index for " +:+
            repr_list repr_text (map name fields) +:+ on_model self)
  | DeleteIndex, FieldsAttrs fields =>
      Some (" + Deleted index for " +:+
            repr_list repr_text (map name fields) +:+ on_model self)
  | UpdateIndex, FieldsAttrs fields =>
      Some (" + Updated index for " +:+
            repr_list repr_text (map name fields) +:+ on_model self)
  | _, _ => None
  end.

(** The fragment that deletes a model. *)
Definition delete_model_code (self : Obj) : string :=
  "        # Deleting " +:+ model_type self +:+ " '" +:+ model_class_name self +:+
  "'" +:+ nl +:+
  "        db.delete_" +:+ model_type self +:+ "(" +:+
  repr_text (model_name self) +:+ ")" +:+ nl.

(** The fragment that deletes a field. *)
Definition delete_field_code (self : Obj) (field : Field) : string :=
  "        # Deleting field '" +:+ model_class_name self +:+ "." +:+ name field +:+
  "'" +:+ nl +:+
  "        db.delete_property(" +:+ repr_text (model_name self) +:+ ", " +:+
  repr_text (column field) +:+ ")" +:+ nl.

(** The fragment of a call [db.<call>] on a unique constraint or an index,
    under the comment [# <what> on ...]. *)
Definition constraint_code (what call : string) (self : Obj) (fields : list Field)
  : string :=
  "        # " +:+ what +:+ " on '" +:+ model_class_name self +:+ "', fields " +:+
  repr_list repr_text (map name fields) +:+ nl +:+
  "        db." +:+ call +:+ "(" +:+ repr_text (model_name self) +:+ ", " +:+
  repr_list repr_text (map column fields) +:+ ")" +:+ nl.

(** The comment and the call of [forwards_code()] and of
    [backwards_code()] for the classes of constraints and indexes. *)
Definition constraint_forwards (c : PyClass) : option (string * string) :=
  match c with
  | AddUnique => Some ("Adding unique constraint", "create_unique")
  | DeleteUnique => Some ("Removing unique constraint", "delete_unique")
  | AddIndex => Some ("Adding index", "create_index")
  | DeleteIndex => Some ("Removing index", "delete_index")
  | UpdateIndex => Some ("Updating index", "update_index")
  | _ => None
  end.

Definition constraint_backwards (c : PyClass) : option (string * string) :=
  match c with
  | AddUnique => Some ("Removing unique constraint", "delete_unique")
  | DeleteUnique => Some ("Adding unique constraint", "create_unique")
  | AddIndex => Some ("Removing index", "delete_index")
  | DeleteIndex => Some ("Adding index", "create_index")
  | UpdateIndex => Some ("Updating index", "update_index")
  | _ => None
  end.

(** The notice that [irreversable_code] renders. *)
Definition irreversible_notice (self : Obj) (field : Field) : string :=
  nl +:+
  "        # User chose to not deal with backwards NULL issues for '" +:+
  model_class_name self +:+ "." +:+ name field +:+ "'" +:+ nl +:+
  "        raise RuntimeError(" +:+ dq +:+ "Cannot reverse this migration. '" +:+
  model_class_name self +:+ "." +:+ name field +:+
  "' and its values cannot be restored." +:+ dq +:+ ")" +:+ nl +:+
  nl +:+
  "        # The following code is provided here to aid in writing a correct migration".

End Renderings.


(** ** Placement in the operation lists *)

(** [list.insert(0, code)] when [front] holds, [list.append(code)]
    otherwise. *)
Definition placed (front : bool) (code : string) (l : list string)
  : list string :=
  if front then code :: l else l ++ [code].


(** * Properties *)

Example format_args_demo :
  format_args (fun s => "'" +:+ s +:+ "'") " + Added model %s.%s" [VStr "app"; VStr "person"]
  = Ret " + Added model app.person".
Proof. reflexivity. Qed.

Example format_map_demo :
  format_map (fun s => "'" +:+ s +:+ "'") "db.delete_%(t)s(%(n)r)" [("t", VStr "vertex"); ("n", VStr "person")]
  = Ret "db.delete_vertex('person')".
Proof. reflexivity. Qed.

Example mro_DeleteField :
  mro DeleteField = [DeleteField; AddField; Action; _NullIssuesField].
Proof. reflexivity. Qed.

Example mro_ChangeField : mro ChangeField = [ChangeField; Action; _NullIssuesField].
Proof. reflexivity. Qed.

Example getattr_DeleteUnique_FORWARDS :
  class_getattr DeleteUnique "FORWARDS_TEMPLATE"
  = Some (AddUnique, AStr AddUnique_FORWARDS_TEMPLATE).
Proof. reflexivity. Qed.

(** No class of the module binds [triple_to_def] or [triples_to_defs]. *)
Lemma class_getattr_triple_to_def (c : PyClass) :
  class_getattr c "triple_to_def" = None.
Proof. destruct c; reflexivity. Qed.

Lemma class_getattr_triples_to_defs (c : PyClass) :
  class_getattr c "triples_to_defs" = None.
Proof. destruct c; reflexivity. Qed.

Section Properties.
Variable repr_text : string -> string.
Variable py_eval : string -> EvalResult.


(** C4. The deleting classes swap the code of the adding classes: on the
    same attributes, [DeleteModel.forwards_code()] is
    [AddModel.backwards_code()] and [DeleteModel.backwards_code()] is
    [AddModel.forwards_code()], and likewise for [DeleteUnique] against
    [AddUnique] and [DeleteIndex] against [AddIndex]. *)
Theorem delete_swaps_add_code (self : Obj) :
  (forwards_code repr_text (as_class DeleteModel self)
     = backwards_code repr_text (as_class AddModel self) ∧
   backwards_code repr_text (as_class DeleteModel self)
     = forwards_code repr_text (as_class AddModel self)) ∧
  (forwards_code repr_text (as_class DeleteUnique self)
     = backwards_code repr_text (as_class AddUnique self) ∧
   backwards_code repr_text (as_class DeleteUnique self)
     = forwards_code repr_text (as_class AddUnique self)) ∧
  (forwards_code repr_text (as_class DeleteIndex self)
     = backwards_code repr_text (as_class AddIndex self) ∧
   backwards_code repr_text (as_class DeleteIndex self)
     = forwards_code repr_text (as_class AddIndex self)).
Proof. repeat split; reflexivity. Qed.

(** C10. For an [UpdateIndex] instance [forwards_code()] and
    [backwards_code()] are the same: both render [UPDATE_TEMPLATE] with
    the same model and field substitutions. *)
Theorem UpdateIndex_forwards_is_backwards (self : Obj) :
  cls self = UpdateIndex →
  forwards_code repr_text self = backwards_code repr_text self ∧
  forwards_code repr_text self = update_code repr_text self.
Proof.
  intros Hcls. unfold forwards_code, backwards_code. rewrite Hcls. cbn.
  unfold UpdateIndex.forwards_code, UpdateIndex.backwards_code, update_code,
    template. rewrite Hcls. split; reflexivity.
Qed.

(** ** The dialog *)

Local Abbreviation deal_with_not_null_no_default :=
  (_NullIssuesField.deal_with_not_null_no_default repr_text py_eval).
Local Abbreviation add_one_time_default :=
  (_NullIssuesField.add_one_time_default py_eval).
Local Abbreviation read_code := (_NullIssuesField.read_code py_eval).
Local Abbreviation read_choice := _NullIssuesField.read_choice.

(** The choice loop, one round unrolled, reads as the source does: a
    [raw_input], the three tests, and the loop again after
    [Invalid choice]. *)
Lemma input_choice_loop (issue : bool) (w : World) :
  _NullIssuesField.input_choice issue w
  = (choice ← raw_input " ? Please select a choice: ";
     if String.eqb choice "1" then sys_exit 1
     else if String.eqb choice "2" then mret choice
     else if String.eqb choice "3" && issue then mret choice
     else print " ! Invalid choice.";; _NullIssuesField.input_choice issue) w.
Proof.
  unfold _NullIssuesField.input_choice, mbind, M_bind, raw_input.
  destruct (stdin w) as [|choice rest]; [reflexivity|].
  cbn [_NullIssuesField.read_choice].
  destruct (String.eqb choice "1"); [reflexivity|].
  destruct (String.eqb choice "2"); [reflexivity|].
  destruct (String.eqb choice "3" && issue); reflexivity.
Qed.

(** The code loop, one round unrolled. *)
Lemma input_code_loop (w : World) :
  _NullIssuesField.input_code py_eval w
  = (code ← raw_input " >>> ";
     if String.eqb code EmptyString then
       print " ! Please enter some code, or 'exit' (with no quotes) to exit.";;
       _NullIssuesField.input_code py_eval
     else if String.eqb code "exit" then sys_exit 1
     else match py_eval code with
          | Evaluated result => mret result
          | EvalSyntaxError e | EvalNameError e =>
              print (" ! Invalid input: " +:+ e);;
              _NullIssuesField.input_code py_eval
          | EvalRaised e => lift (Err e)
          | EvalExited status => sys_exit status
          end) w.
Proof.
  unfold _NullIssuesField.input_code, mbind, M_bind, raw_input.
  destruct (stdin w) as [|code rest]; [reflexivity|].
  cbn [_NullIssuesField.read_code].
  destruct (String.eqb code EmptyString); [reflexivity|].
  destruct (String.eqb code "exit"); [reflexivity|].
  destruct (py_eval code); reflexivity.
Qed.

Lemma world_eq (w1 w2 : World) :
  stdin w1 = stdin w2 → trace w1 = trace w2 → heap w1 = heap w2 → w1 = w2.
Proof. destruct w1, w2; cbn; intros; subst; reflexivity. Qed.

Lemma read_choice_rejected (issue : bool) (junk lines : list string) (w : World) :
  forallb (rejected issue) junk = true →
  stdin w = junk ++ lines →
  read_choice issue (stdin w) w
  = read_choice issue lines
      {| stdin := lines; trace := trace w ++ reprompts junk; heap := heap w |}.
Proof.
  revert w. induction junk as [|line junk IH]; intros w Hjunk Hin.
  - cbn in *. rewrite Hin. f_equal. apply world_eq; cbn; auto using app_nil_r.
  - cbn in Hjunk. apply andb_prop in Hjunk as [Hline Hjunk].
    rewrite Hin. cbn [app _NullIssuesField.read_choice].
    unfold rejected in Hline.
    apply andb_prop in Hline as [Hline H3]. apply andb_prop in Hline as [H1 H2].
    apply negb_true_iff in H1, H2, H3. rewrite H1, H2, H3.
    set (w1 := log _ _).
    specialize (IH w1 Hjunk eq_refl). cbn [stdin w1 log consumed] in IH.
    rewrite IH. f_equal. apply world_eq; cbn; try reflexivity.
    rewrite <- !app_assoc. reflexivity.
Qed.

Lemma emit_app (es es' : list Event) (w : World) :
  emit es' (emit es w) = emit (es ++ es') w.
Proof. apply world_eq; cbn; auto using app_assoc. Qed.

Lemma format_field_line (a b : string) :
  format_args repr_text
    " ? The field '%s.%s' does not have a default specified, yet is NOT NULL."
    [VStr a; VStr b]
  = Ret (" ? The field '" +:+ a +:+ "." +:+ b +:+
         "' does not have a default specified, yet is NOT NULL.").
Proof. reflexivity. Qed.

Lemma format_reason_line (reason : string) :
  format_args repr_text " ? Since you are %s, you MUST specify a default"
    [VStr reason]
  = Ret (" ? Since you are " +:+ reason +:+ ", you MUST specify a default").
Proof. reflexivity. Qed.

(** The attributes the dialog reads are there on every instance of the
    three classes that mix [_NullIssuesField] in. *)
Lemma dialog_attributes_defined (self : Obj) :
  cls self ∈ [AddField; DeleteField; ChangeField] →
  (∃ reason, null_reason self = Ret reason) ∧
  (∃ issue, issue_with_backward_migration self = Ret issue).
Proof.
  intros Hcls. unfold null_reason, issue_with_backward_migration.
  destruct (self_null_reason self), (self_issue_with_backward_migration self);
    cbn [getattr_str getattr_bool]; split; try (eexists; reflexivity);
    repeat (apply elem_of_cons in Hcls as [-> | Hcls];
            [eexists; reflexivity|]);
    now apply elem_of_nil in Hcls.
Qed.

(** Past the blank text fields, the dialog prints its menu and then runs
    the choice loop. *)
Lemma deal_with_asks (self : Obj) (field : Field) (fd : Triple) (w : World)
    (reason : string) (issue : bool) :
  isinstance_String_Text field && blank field = false →
  null_reason self = Ret reason →
  issue_with_backward_migration self = Ret issue →
  deal_with_not_null_no_default self field fd w
  = (choice ← _NullIssuesField.input_choice issue;
     if String.eqb choice "2" then
       add_one_time_default self field fd;; mret self
     else if String.eqb choice "3" then mret (set_irreversible true self)
     else mret self) (emit (menu self field reason issue) w).
Proof.
  intros Hblank Hreason Hissue.
  unfold _NullIssuesField.deal_with_not_null_no_default.
  rewrite Hblank, Hreason, Hissue.
  unfold mbind, M_bind, called, print, lift.
  rewrite format_field_line, format_reason_line.
  destruct issue; cbn [mret M_ret];
    match goal with
    | |- context [_NullIssuesField.input_choice ?b ?w1] =>
        replace w1 with (emit (menu self field reason b) w); [reflexivity|]
    end;
    apply world_eq; cbn; rewrite <- ?app_assoc; reflexivity.
Qed.


Lemma read_choice_2 (issue : bool) (rest : list string) (w : World) :
  read_choice issue ("2" :: rest) w = Done "2" (consumed choice_prompt rest w).
Proof. reflexivity. Qed.


Lemma input_choice_rejected (issue : bool) (junk lines : list string)
    (es : list Event) (w : World) :
  forallb (rejected issue) junk = true →
  stdin w = junk ++ lines →
  _NullIssuesField.input_choice issue (emit es w)
  = read_choice issue lines
      {| stdin := lines; trace := trace w ++ es ++ reprompts junk; heap := heap w |}.
Proof.
  intros Hjunk Hin. unfold _NullIssuesField.input_choice.
  rewrite (read_choice_rejected issue junk lines (emit es w) Hjunk Hin).
  f_equal. apply world_eq; cbn; auto using app_assoc.
Qed.


(** ** The one-off default *)

Lemma read_code_refused (junk lines : list string) (w : World) :
  forallb (refused py_eval) junk = true →
  stdin w = junk ++ lines →
  read_code (stdin w) w
  = read_code lines
      {| stdin := lines; trace := trace w ++ refusals py_eval junk; heap := heap w |}.
Proof.
  revert w. induction junk as [|line junk IH]; intros w Hjunk Hin.
  - cbn in *. rewrite Hin. f_equal. apply world_eq; cbn; auto using app_nil_r.
  - cbn in Hjunk. apply andb_prop in Hjunk as [Hline Hjunk].
    rewrite Hin. cbn [app _NullIssuesField.read_code].
    unfold refused in Hline. apply bool_decide_eq_true in Hline.
    cbn [refusals flat_map]. fold (refusals py_eval junk).
    unfold refusal in *.
    destruct (String.eqb line EmptyString).
    + set (w1 := log _ _).
      pose proof (IH w1 Hjunk eq_refl) as IH1; cbn [stdin w1 log consumed] in IH1;
        rewrite IH1; f_equal. apply world_eq; cbn; try reflexivity.
      now rewrite <- !app_assoc.
    + destruct (String.eqb line "exit"); [congruence|].
      destruct (py_eval line) as [v|e|e|e|e]; try congruence.
      * set (w1 := log _ _).
        pose proof (IH w1 Hjunk eq_refl) as IH1; cbn [stdin w1 log consumed] in IH1;
        rewrite IH1; f_equal.
        apply world_eq; cbn; try reflexivity. now rewrite <- !app_assoc.
      * set (w1 := log _ _).
        pose proof (IH w1 Hjunk eq_refl) as IH1; cbn [stdin w1 log consumed] in IH1;
        rewrite IH1; f_equal.
        apply world_eq; cbn; try reflexivity. now rewrite <- !app_assoc.
Qed.

Lemma read_code_evaluates (code value : string) (rest : list string) (w : World) :
  evaluates py_eval code value →
  read_code (code :: rest) w = Done value (consumed code_prompt rest w).
Proof.
  intros (Hne & Hexit & Heval). cbn [_NullIssuesField.read_code].
  apply String.eqb_neq in Hne, Hexit. now rewrite Hne, Hexit, Heval.
Qed.

(** The code loop never touches the store, however it ends. *)
Lemma read_code_heap (lines : list string) (w : World) :
  heap (world_of (read_code lines w)) = heap w.
Proof.
  revert w. induction lines as [|code rest IH]; intros w; [reflexivity|].
  cbn [_NullIssuesField.read_code].
  destruct (String.eqb code EmptyString); [now rewrite IH|].
  destruct (String.eqb code "exit"); [reflexivity|].
  destruct (py_eval code); try reflexivity; now rewrite IH.
Qed.

Lemma add_one_time_default_heap (self : Obj) (field : Field) (fd : Triple)
    (w : World) :
  heap (world_of (add_one_time_default self field fd w)) = heap w.
Proof.
  unfold _NullIssuesField.add_one_time_default, mbind, M_bind, called, print,
    _NullIssuesField.input_code.
  cbn [stdin log].
  match goal with
  | |- context [_NullIssuesField.read_code ?e ?l ?w1] =>
      pose proof (read_code_heap l w1) as Hh;
      destruct (_NullIssuesField.read_code e l w1)
  end; cbn in *; exact Hh.
Qed.

Lemma add_one_time_default_evaluates (self : Obj) (field : Field) (fd : Triple)
    (w : World) (junk : list string) (code value : string) (rest : list string) :
  forallb (refused py_eval) junk = true →
  evaluates py_eval code value →
  stdin w = junk ++ code :: rest →
  add_one_time_default self field fd w
  = Done tt (answered code_prompt (code_intro ++ refusals py_eval junk) rest w).
Proof.
  intros Hjunk Hcode Hin.
  unfold _NullIssuesField.add_one_time_default, mbind, M_bind, called, print,
    _NullIssuesField.input_code.
  set (w1 := log _ (log _ (log _ w))).
  rewrite (read_code_refused junk (code :: rest) w1 Hjunk Hin).
  rewrite (read_code_evaluates code value rest _ Hcode).
  cbn [mret M_ret]. f_equal. apply world_eq; cbn; try reflexivity.
  now rewrite <- !app_assoc.
Qed.

(** C9. [add_one_time_default] evaluates the code it is given and throws
    the value away: however the call ends the store of the field
    definitions is as it was, and once the user, after choosing [2], enters
    code that evaluates, the call returns with nothing but the console and
    the input changed: neither the store nor the action records the
    value. *)
Theorem one_time_default_is_discarded (self : Obj) (field : Field) (fd : Triple)
    (w : World) :
  heap (world_of (add_one_time_default self field fd w)) = heap w ∧
  ∀ (junk : list string) (code value : string) (rest : list string),
    forallb (refused py_eval) junk = true →
    evaluates py_eval code value →
    (stdin w = junk ++ code :: rest →
     add_one_time_default self field fd w
     = Done tt (answered code_prompt (code_intro ++ refusals py_eval junk) rest w)) ∧
    (∀ (reason : string) (issue : bool) (skipped : list string),
       isinstance_String_Text field && blank field = false →
       null_reason self = Ret reason →
       issue_with_backward_migration self = Ret issue →
       forallb (rejected issue) skipped = true →
       stdin w = skipped ++ "2" :: junk ++ code :: rest →
       deal_with_not_null_no_default self field fd w
       = Done self
           (answered code_prompt
              (menu self field reason issue ++ reprompts skipped ++
               [Prompted choice_prompt] ++ code_intro ++ refusals py_eval junk)
              rest w)).
Proof.
  split; [apply add_one_time_default_heap|].
  intros junk code value rest Hjunk Hcode. split.
  - intros Hin. now apply (add_one_time_default_evaluates _ _ _ _ junk code value rest).
  - intros reason issue skipped Hblank Hreason Hissue Hskipped Hin.
    rewrite (deal_with_asks self field fd w reason issue Hblank Hreason Hissue).
    unfold mbind at 1. unfold M_bind at 1.
    rewrite (input_choice_rejected issue skipped _ _ w Hskipped Hin).
    rewrite read_choice_2.
    change (String.eqb "2" "2") with true. cbv iota.
    unfold mbind at 1. unfold M_bind at 1.
    erewrite (add_one_time_default_evaluates self field fd _ junk code value rest
                Hjunk Hcode) by reflexivity.
    cbn [mret M_ret]. f_equal. unfold answered, consumed. cbn [stdin trace heap].
    f_equal. now rewrite <- !app_assoc.
Qed.

(** ** What a run of the dialog leaves behind *)

Lemma grows_ret {A} (a : A) : grows (mret a).
Proof. intros w e He. exact He. Qed.

Lemma grows_bind {A B} (m : M A) (k : A → M B) :
  grows m → (∀ a, grows (k a)) → grows (m ≫= k).
Proof.
  intros Hm Hk w e He. unfold mbind, M_bind.
  specialize (Hm w e He). destruct (m w) as [a w1|code w1|x w1]; cbn in *; auto.
  now apply Hk.
Qed.

Lemma grows_log {A} (ev : Event) (a : A) : grows (λ w, Done a (log ev w)).
Proof. intros w e He. cbn. apply elem_of_app. now left. Qed.

Lemma grows_print (line : string) : grows (print line).
Proof. apply grows_log. Qed.

Lemma grows_called (method : string) : grows (called method).
Proof. apply grows_log. Qed.

Lemma grows_lift {A} (r : Res A) : grows (lift r).
Proof. intros w e He. unfold lift. now destruct r. Qed.

Lemma grows_setitem (l : loc) (key value : string) : grows (setitem l key value).
Proof. intros w e He. exact He. Qed.

Lemma grows_input_choice (issue : bool) : grows (_NullIssuesField.input_choice issue).
Proof.
  intros w e. unfold _NullIssuesField.input_choice.
  generalize (stdin w) as lines. intros lines. revert w.
  induction lines as [|line rest IH]; intros w He; cbn.
  - apply elem_of_app. now left.
  - assert (Hc : e ∈ trace (consumed " ? Please select a choice: " rest w))
      by (cbn; apply elem_of_app; now left).
    destruct (String.eqb line "1"); [exact Hc|].
    destruct (String.eqb line "2"); [exact Hc|].
    destruct (String.eqb line "3" && issue); [exact Hc|].
    apply IH. cbn. apply elem_of_app. left. apply elem_of_app. now left.
Qed.

Lemma grows_input_code : grows (_NullIssuesField.input_code py_eval).
Proof.
  intros w e. unfold _NullIssuesField.input_code.
  generalize (stdin w) as lines. intros lines. revert w.
  induction lines as [|line rest IH]; intros w He; cbn.
  - apply elem_of_app. now left.
  - assert (Hc : e ∈ trace (consumed " >>> " rest w))
      by (cbn; apply elem_of_app; now left).
    destruct (String.eqb line EmptyString).
    { apply IH. cbn. apply elem_of_app. left. apply elem_of_app. now left. }
    destruct (String.eqb line "exit"); [exact Hc|].
    destruct (py_eval line); try exact Hc;
      apply IH; cbn; apply elem_of_app; left; apply elem_of_app; now left.
Qed.

Ltac grows_step :=
  first
    [ apply grows_ret | apply grows_print | apply grows_called | apply grows_lift
    | apply grows_setitem | apply grows_input_choice | apply grows_input_code
    | apply grows_bind; [|intros ?]
    | match goal with
      | |- grows (if ?b then _ else _) => destruct b
      end ].

Lemma grows_add_one_time_default (self : Obj) (field : Field) (fd : Triple) :
  grows (add_one_time_default self field fd).
Proof. unfold _NullIssuesField.add_one_time_default. repeat grows_step. Qed.

(** A call of [deal_with_not_null_no_default] shows on the console record,
    however it ends. *)
Lemma deal_with_is_logged (self : Obj) (field : Field) (fd : Triple) (w : World) :
  Called "deal_with_not_null_no_default"
  ∈ trace (world_of (deal_with_not_null_no_default self field fd w)).
Proof.
  unfold _NullIssuesField.deal_with_not_null_no_default.
  unfold mbind at 1. unfold M_bind at 1. unfold called at 1.
  match goal with
  | |- _ ∈ trace (world_of (?k ?w1)) =>
      assert (Hk : grows k); [|apply Hk; cbn; apply elem_of_app; right; constructor]
  end.
  repeat first [grows_step | apply grows_add_one_time_default].
Qed.

(** What the dialog returns is the instance it was called on, with
    [irreversible] set or not. *)
Lemma deal_with_result (self self' : Obj) (field : Field) (fd : Triple)
    (w w' : World) :
  deal_with_not_null_no_default self field fd w = Done self' w' →
  self' = self ∨ self' = set_irreversible true self.
Proof.
  unfold _NullIssuesField.deal_with_not_null_no_default.
  unfold mbind, M_bind, called, print, lift, setitem.
  destruct (isinstance_String_Text field && blank field).
  { cbn. intros [= <- _]. now left. }
  rewrite format_field_line.
  destruct (null_reason self) as [reason|]; [|cbv beta iota; discriminate].
  rewrite format_reason_line.
  destruct (issue_with_backward_migration self) as [issue|]; [|cbv beta iota; discriminate].
  assert (Hloop : ∀ w2 : World,
             (choice ← _NullIssuesField.input_choice issue;
              if String.eqb choice "2" then
                add_one_time_default self field fd;; mret self
              else if String.eqb choice "3" then mret (set_irreversible true self)
              else mret self) w2 = Done self' w' →
             self' = self ∨ self' = set_irreversible true self).
  { intros w2. unfold mbind, M_bind.
    destruct (_NullIssuesField.input_choice issue w2) as [choice w3| |];
      [|discriminate..].
    destruct (String.eqb choice "2").
    { destruct (add_one_time_default self field fd w3) as [[] w4| |];
        [|discriminate..].
      cbn. intros [= <- _]. now left. }
    destruct (String.eqb choice "3"); cbn; intros [= <- _]; auto. }
  destruct issue; apply Hloop.
Qed.

(** ** Instantiation *)

Lemma same_core_refl (a : Obj) : same_core a a.
Proof. repeat split. Qed.

Lemma init_owner (c : PyClass) :
  class_getattr c "__init__"
  = match c with
    | AddModel | DeleteModel => Some (AddModel, AMethod)
    | AddField | DeleteField => Some (AddField, AMethod)
    | ChangeField => Some (ChangeField, AMethod)
    | AddUnique | DeleteUnique => Some (AddUnique, AMethod)
    | AddIndex | DeleteIndex | UpdateIndex => Some (AddIndex, AMethod)
    | Action | _NullIssuesField => None
    end.
Proof. destruct c; reflexivity. Qed.

Lemma classify_model_base (m : Model) :
  classify_model m
  = match m_base m with
    | VertexBase => Ret ("vertex", get_element_type m)
    | EdgeBase => Ret ("edge", get_label m)
    | OtherBase =>
        Err (MogwaiMigrationException (m_str m +:+ " is Not a Vertex or Edge"))
    end.
Proof.
  unfold classify_model, issubclass_Vertex, issubclass_Edge.
  now destruct (m_base m).
Qed.

Lemma deal_with_core (self self' : Obj) (field : Field) (fd : Triple)
    (w w' : World) :
  deal_with_not_null_no_default self field fd w = Done self' w' →
  same_core self' self.
Proof.
  intros H. destruct (deal_with_result _ _ _ _ _ _ H) as [-> | ->];
    repeat split.
Qed.

(** What a constructor that returns has built. *)
Lemma new_Done (c : PyClass) (m : Model) (args : Payload) (app : string)
    (w w' : World) (self : Obj) :
  new repr_text py_eval c m args app w = Done self w' →
  ∃ kind, classify_model m = Ret kind ∧ family_ok c args = true ∧
          same_core self (new_object c app m kind args).
Proof.
  unfold new. rewrite init_owner.
  assert (Hplain : ∀ p, (kind ← lift (classify_model m);
                         mret (new_object c app m kind p)) w = Done self w' →
                        ∃ kind, classify_model m = Ret kind ∧
                                same_core self (new_object c app m kind p)).
  { intros p. unfold mbind, M_bind, lift.
    destruct (classify_model m) as [kind|]; [|discriminate].
    cbn. intros [= <- _]. exists kind. split; [reflexivity|apply same_core_refl]. }
  destruct c, args; try discriminate; cbn [family_ok];
    try (intros H; apply Hplain in H as (kind & Hk & Hc); now exists kind).
  - (* AddField *)
    unfold AddField.__init__, mbind, M_bind, lift.
    destruct (classify_model m) as [kind|]; [|discriminate].
    destruct (negb (required field) && negb (bool_decide (default field ≠ None))).
    + intros H%deal_with_core. now exists kind.
    + cbn. intros [= <- _]. exists kind. repeat split.
  - (* DeleteField *)
    unfold AddField.__init__, mbind, M_bind, lift.
    destruct (classify_model m) as [kind|]; [|discriminate].
    destruct (negb (required field) && negb (bool_decide (default field ≠ None))).
    + intros H%deal_with_core. now exists kind.
    + cbn. intros [= <- _]. exists kind. repeat split.
  - (* ChangeField *)
    unfold ChangeField.__init__, mbind, M_bind, lift.
    destruct (classify_model m) as [kind|]; [|discriminate].
    set (self0 := new_object ChangeField app m kind _).
    destruct (required old_field && negb (required new_field) &&
              negb (bool_decide (default new_field ≠ None))).
    + destruct (deal_with_not_null_no_default self0 new_field new_def w)
        as [self1 w1| |] eqn:E1; [|discriminate..].
      apply deal_with_core in E1.
      destruct (negb (required old_field) && required new_field &&
                negb (bool_decide (default old_field ≠ None))).
      * intros H%deal_with_core. exists kind. split; [reflexivity|].
        split; [reflexivity|].
        destruct H as (?&?&?&?&?&?&?), E1 as (?&?&?&?&?&?&?).
        repeat split; cbn in *; congruence.
      * cbn. intros [= <- _]. now exists kind.
    + cbn [mret M_ret].
      destruct (negb (required old_field) && required new_field &&
                negb (bool_decide (default old_field ≠ None))).
      * intros H%deal_with_core. exists kind. split; [reflexivity|].
        split; [reflexivity|].
        destruct H as (?&?&?&?&?&?&?). repeat split; cbn in *; congruence.
      * intros [= <- _]. exists kind. repeat split.
Qed.

(** ** The three outputs *)

(** [ChangeField._code] reaches [self.triple_to_def] on every path,
    whether it renders the renaming first or not. *)
Lemma ChangeField__code_raises (self : Obj) (old_field new_field : Field)
    (old_def new_def : Triple) (a b : Field) (d : Triple) :
  cls self = ChangeField →
  payload self = ChangeAttrs old_field new_field old_def new_def →
  ChangeField._code repr_text self a b d = Err (AttributeError "triple_to_def").
Proof.
  intros Hcls Hp.
  unfold ChangeField._code, self_old_field, self_new_field, template,
    call_undefined.
  rewrite Hp, Hcls. cbn [mbind res_bind rbind].
  destruct (negb (String.eqb (column old_field) (column new_field)));
    reflexivity.
Qed.

Lemma ChangeField_code_raises (self : Obj) (old_field new_field : Field)
    (old_def new_def : Triple) :
  cls self = ChangeField →
  payload self = ChangeAttrs old_field new_field old_def new_def →
  forwards_code repr_text self = Err (AttributeError "triple_to_def") ∧
  backwards_code repr_text self = Err (AttributeError "triple_to_def").
Proof.
  intros Hcls Hp.
  unfold forwards_code, backwards_code.
  rewrite Hcls. cbn [getattr_method].
  change (class_getattr ChangeField "forwards_code")
    with (Some (ChangeField, AMethod)).
  change (class_getattr ChangeField "backwards_code")
    with (Some (ChangeField, AMethod)).
  cbn [mbind res_bind rbind].
  unfold ChangeField.forwards_code, ChangeField.backwards_code,
    self_old_field, self_new_field, self_old_def, self_new_def.
  rewrite Hp. cbn [mbind res_bind rbind].
  rewrite !(ChangeField__code_raises self old_field new_field old_def new_def)
    by assumption.
  split; reflexivity.
Qed.

Lemma outputs_table (self : Obj) (c : PyClass) (app : string) (m : Model)
    (kind : string * string) (args : Payload) :
  same_core self (new_object c app m kind args) →
  family_ok c args = true →
  (∃ s, console_line repr_text self = Ret s) ∧
  outcome_with (forwards_helper c) (forwards_code repr_text self) ∧
  outcome_with (backwards_helper c) (backwards_code repr_text self).
Proof.
  destruct self as [c0 app0 m0 mcn mt mn p nr iss irr].
  intros (Hc & Ha & Hm & Hmcn & Hmt & Hmn & Hp) Hfam. cbn in *. subst.
  destruct c, args; try discriminate Hfam;
    cbn [forwards_helper backwards_helper outcome_with];
    repeat split; try (eexists; reflexivity); try reflexivity;
    try (destruct irr as [[|]|]; reflexivity);
    match goal with
    | |- _ ?self = _ =>
        destruct (ChangeField_code_raises self old_field new_field old_def new_def
                    eq_refl eq_refl) as [Hf Hb]
    end; assumption.
Qed.

(** C5, as the code has it. Every action that was constructed returns a
    string from [console_line()], and none of its three methods raises
    [NotImplementedError]; but [forwards_code()] of [AddModel], [AddField]
    and [ChangeField], and [backwards_code()] of [DeleteModel],
    [DeleteField] and [ChangeField], raise [AttributeError]: they call
    [self.triples_to_defs] or [self.triple_to_def], which no class of the
    hierarchy defines. The other code methods return a string. *)
Theorem constructed_action_outputs (c : PyClass) (m : Model) (args : Payload)
    (app : string) (w w' : World) (self : Obj) :
  new repr_text py_eval c m args app w = Done self w' →
  (∃ s, console_line repr_text self = Ret s) ∧
  forwards_code repr_text self ≠ Err NotImplementedError ∧
  backwards_code repr_text self ≠ Err NotImplementedError ∧
  outcome_with (forwards_helper c) (forwards_code repr_text self) ∧
  outcome_with (backwards_helper c) (backwards_code repr_text self).
Proof.
  intros (kind & _ & Hfam & Hcore)%new_Done.
  destruct (outputs_table self c app m kind args Hcore Hfam) as (Hc & Hf & Hb).
  split; [exact Hc|].
  split; [|split; [|split; assumption]].
  - unfold outcome_with in Hf. destruct (forwards_helper c).
    + rewrite Hf. discriminate.
    + destruct Hf as [s ->]. discriminate.
  - unfold outcome_with in Hb. destruct (backwards_helper c).
    + rewrite Hb. discriminate.
    + destruct Hb as [s ->]. discriminate.
Qed.

(** C7, as the code has it. [backwards_code()] of a [DeleteField] and of a
    [ChangeField] raises [AttributeError] on [triple_to_def], whether
    [irreversible] is set or not: the restore code is never rendered, so
    nothing is returned for the irreversible notice to be prepended to. *)
Theorem irreversible_backwards_code_raises (c : PyClass) (m : Model)
    (args : Payload) (app : string) (w w' : World) (self : Obj) :
  new repr_text py_eval c m args app w = Done self w' →
  c = DeleteField ∨ c = ChangeField →
  backwards_code repr_text self = Err (AttributeError "triple_to_def").
Proof.
  intros (kind & _ & Hfam & Hcore)%new_Done Hc.
  destruct (outputs_table self c app m kind args Hcore Hfam) as (_ & _ & Hb).
  destruct Hc as [-> | ->]; exact Hb.
Qed.

(** C8, as the code has it. [forwards_code()] and [backwards_code()] of a
    [ChangeField] raise [AttributeError] on [triple_to_def], whether the
    columns of the old and the new field differ or not: neither the
    renaming nor the altering fragment is returned. *)
Theorem ChangeField_code_generation_raises (m : Model)
    (old_field new_field : Field) (old_def new_def : Triple) (app : string)
    (w w' : World) (self : Obj) :
  new repr_text py_eval ChangeField m (ChangeAttrs old_field new_field old_def new_def) app w
  = Done self w' →
  forwards_code repr_text self = Err (AttributeError "triple_to_def") ∧
  backwards_code repr_text self = Err (AttributeError "triple_to_def").
Proof.
  intros (kind & _ & Hfam & Hcore)%new_Done.
  destruct (outputs_table self _ app m kind _ Hcore Hfam) as (_ & Hf & Hb).
  split; assumption.
Qed.

(** C6. A constructor given a model that is neither a [Vertex] nor an
    [Edge] raises [MogwaiMigrationException]; an action constructed on a
    [Vertex] subclass has [model_type] ['vertex'] and the model's
    [get_element_type()] as [model_name], one constructed on an [Edge]
    subclass has ['edge'] and the model's [get_label()]; and on such a model
    the constructors that do not enter the dialog do return an action. *)
Theorem new_classifies_model (c : PyClass) (m : Model) (args : Payload)
    (app : string) (w : World) :
  family_ok c args = true →
  (m_base m = OtherBase →
   new repr_text py_eval c m args app w
   = Raised (MogwaiMigrationException (m_str m +:+ " is Not a Vertex or Edge")) w) ∧
  (∀ (self : Obj) (w' : World),
     new repr_text py_eval c m args app w = Done self w' →
     match m_base m with
     | VertexBase =>
         model_type self = "vertex" ∧ model_name self = get_element_type m
     | EdgeBase => model_type self = "edge" ∧ model_name self = get_label m
     | OtherBase => False
     end) ∧
  (m_base m ≠ OtherBase → asks args = false →
   ∃ self, new repr_text py_eval c m args app w = Done self w).
Proof.
  intros Hfam. split; [|split].
  - intros Hbase. unfold new. rewrite init_owner.
    destruct c, args; try discriminate Hfam;
      unfold AddModel.__init__, AddField.__init__, ChangeField.__init__,
        AddUnique.__init__, AddIndex.__init__, mbind, M_bind, lift;
      rewrite classify_model_base, Hbase; reflexivity.
  - intros self w' (kind & Hkind & _ & Hcore)%new_Done.
    destruct Hcore as (_ & _ & _ & _ & Hmt & Hmn & _). cbn in Hmt, Hmn.
    rewrite classify_model_base in Hkind.
    destruct (m_base m); [| |discriminate]; injection Hkind as <-; now split.
  - intros Hbase Hasks. unfold new. rewrite init_owner.
    destruct c, args; try discriminate Hfam;
      unfold AddModel.__init__, AddField.__init__, ChangeField.__init__,
        AddUnique.__init__, AddIndex.__init__, mbind, M_bind, lift;
      rewrite classify_model_base; cbn [asks] in Hasks;
      destruct (m_base m); try congruence;
      try (eexists; reflexivity);
      try (rewrite Hasks; eexists; reflexivity).
    + apply orb_false_elim in Hasks as [-> ->]. eexists; reflexivity.
    + apply orb_false_elim in Hasks as [-> ->]. eexists; reflexivity.
Qed.

(** C1, as the code has it. Constructing an [AddField] calls
    [deal_with_not_null_no_default] exactly when the model is a [Vertex] or
    an [Edge], [required] is false and [default] is [None]: a required field
    without a default does not reach the dialog, a field that is not
    required and has no default does. *)
Theorem AddField_dialog_condition (m : Model) (field : Field) (fd : Triple)
    (app : string) (input : list string) (h : loc → gmap string string) :
  dialog_invoked
    (new repr_text py_eval AddField m (FieldAttrs field fd) app
       {| stdin := input; trace := []; heap := h |})
  = negb (bool_decide (m_base m = OtherBase)) &&
    negb (required field) && bool_decide (default field = None).
Proof.
  unfold new, dialog_invoked. rewrite init_owner.
  unfold AddField.__init__, mbind, M_bind, lift.
  rewrite classify_model_base.
  destruct (m_base m); cbn [negb andb bool_decide decide_rel];
    try reflexivity;
    destruct (required field); cbn [negb andb]; try reflexivity;
    destruct (default field); cbn; try reflexivity;
    apply bool_decide_eq_true, deal_with_is_logged.
Qed.

(** ** Further properties of the constructors and the dialog *)

(** X1. A constructor whose fields all have a default, or that takes no
    single field at all ([AddModel], [DeleteModel] and the classes of
    constraints and indexes), never enters the dialog: it reads no input,
    prints nothing and leaves the store alone, whether it returns an action
    or raises. *)
Theorem new_defaulted_is_silent (c : PyClass) (m : Model) (args : Payload)
    (app : string) (w : World) :
  all_defaulted args = true →
  world_of (new repr_text py_eval c m args app w) = w.
Proof.
  intros Hdef. unfold new. rewrite init_owner.
  destruct c, args; try reflexivity;
    unfold AddModel.__init__, AddField.__init__, ChangeField.__init__,
      AddUnique.__init__, AddIndex.__init__, mbind, M_bind, lift;
    destruct (classify_model m); try reflexivity;
    cbn [all_defaulted] in Hdef.
  - rewrite Hdef, andb_false_r. reflexivity.
  - rewrite Hdef, andb_false_r. reflexivity.
  - apply andb_prop in Hdef as [-> ->]. rewrite !andb_false_r. reflexivity.
Qed.

Lemma read_choice_Done (issue : bool) (lines : list string) (w w' : World)
    (choice : string) :
  _NullIssuesField.read_choice issue lines w = Done choice w' →
  choice = "2" ∨ (choice = "3" ∧ issue = true).
Proof.
  revert w. induction lines as [|line rest IH]; intros w; [discriminate|].
  cbn [_NullIssuesField.read_choice].
  destruct (String.eqb line "1") eqn:E1; [discriminate|].
  destruct (String.eqb line "2") eqn:E2.
  { intros [= <- _]. left. now apply String.eqb_eq. }
  destruct (String.eqb line "3" && issue) eqn:E3; [|apply IH].
  intros [= <- _]. right. apply andb_prop in E3 as [E3 ->].
  split; [now apply String.eqb_eq|reflexivity].
Qed.

(** The dialog sets [irreversible] only on the answer [3], which it only
    takes when [issue_with_backward_migration] holds. *)
Lemma deal_with_sets_irreversible (self self' : Obj) (field : Field)
    (fd : Triple) (w w' : World) :
  deal_with_not_null_no_default self field fd w = Done self' w' →
  self' = self ∨
  (self' = set_irreversible true self ∧
   issue_with_backward_migration self = Ret true).
Proof.
  unfold _NullIssuesField.deal_with_not_null_no_default.
  unfold mbind, M_bind, called, print, lift, setitem.
  destruct (isinstance_String_Text field && blank field).
  { cbn. intros [= <- _]. now left. }
  rewrite format_field_line.
  destruct (null_reason self) as [reason|]; [|cbv beta iota; discriminate].
  rewrite format_reason_line.
  destruct (issue_with_backward_migration self) as [issue|];
    [|cbv beta iota; discriminate].
  assert (Hloop : ∀ w2 : World,
             (choice ← _NullIssuesField.input_choice issue;
              if String.eqb choice "2" then
                add_one_time_default self field fd;; mret self
              else if String.eqb choice "3" then mret (set_irreversible true self)
              else mret self) w2 = Done self' w' →
             self' = self ∨ (self' = set_irreversible true self ∧ Ret issue = Ret true)).
  { intros w2. unfold mbind, M_bind, _NullIssuesField.input_choice.
    destruct (_NullIssuesField.read_choice issue (stdin w2) w2)
      as [choice w3| |] eqn:Echoice; [|discriminate..].
    apply read_choice_Done in Echoice as [-> | [-> ->]].
    - change (String.eqb "2" "2") with true. cbv beta iota.
      destruct (add_one_time_default self field fd w3) as [[] w4| |];
        [|discriminate..].
      cbn. intros [= <- _]. now left.
    - change (String.eqb "3" "2") with false.
      change (String.eqb "3" "3") with true. cbv beta iota.
      cbn. intros [= <- _]. now right. }
  destruct issue; apply Hloop.
Qed.

(** X2. An action comes out of its constructor with [irreversible] set only
    if it is a [DeleteField] or a [ChangeField]; an [AddField] never has it
    set, whatever the user answers. *)
Theorem irreversible_only_after_backward_issue (c : PyClass) (m : Model)
    (args : Payload) (app : string) (w w' : World) (self : Obj) :
  new repr_text py_eval c m args app w = Done self w' →
  (irreversible self = Ret true → c = DeleteField ∨ c = ChangeField) ∧
  (c = AddField → irreversible self = Ret false).
Proof.
  unfold new. rewrite init_owner.
  assert (Hplain : ∀ p, c ≠ DeleteField → c ≠ ChangeField →
            (kind ← lift (classify_model m);
             mret (new_object c app m kind p)) w = Done self w' →
            irreversible self ≠ Ret true ∧
            (c = AddField → irreversible self = Ret false)).
  { intros p Hd Hc. unfold mbind, M_bind, lift.
    destruct (classify_model m) as [kind|]; [|discriminate].
    cbn. intros [= <- _]. unfold irreversible. cbn [self_irreversible cls new_object].
    destruct c; try congruence;
      (split; [intros Heq; vm_compute in Heq; discriminate Heq|]);
      try reflexivity; discriminate. }
  destruct c, args; try discriminate;
    try (intros H; apply Hplain in H as [Hne Hadd]; [|discriminate..];
         split; [intros Hirr; contradiction|exact Hadd]).
  - (* AddField *)
    unfold AddField.__init__, mbind, M_bind, lift.
    destruct (classify_model m) as [kind|]; [|discriminate].
    destruct (negb (required field) && negb (bool_decide (default field ≠ None))).
    + intros [-> | [-> Hissue]]%deal_with_sets_irreversible;
        [split; [discriminate|reflexivity]|discriminate Hissue].
    + cbn. intros [= <- _]. split; [discriminate|reflexivity].
  - (* DeleteField *)
    intros _. split; [now left|discriminate].
  - (* ChangeField *)
    intros _. split; [now right|discriminate].
Qed.

(** *** The store *)

Lemma keeps_store_ret {A} (a : A) : keeps_store (mret a).
Proof. intros w. reflexivity. Qed.

Lemma keeps_store_bind {A B} (m : M A) (k : A → M B) :
  keeps_store m → (∀ a, keeps_store (k a)) → keeps_store (m ≫= k).
Proof.
  intros Hm Hk w. unfold mbind, M_bind. specialize (Hm w).
  destruct (m w) as [a w1|code w1|x w1]; cbn in *; auto.
  now rewrite Hk.
Qed.

Lemma keeps_store_print (line : string) : keeps_store (print line).
Proof. intros w. reflexivity. Qed.

Lemma keeps_store_called (method : string) : keeps_store (called method).
Proof. intros w. reflexivity. Qed.

Lemma keeps_store_lift {A} (r : Res A) : keeps_store (lift r).
Proof. intros w. unfold lift. now destruct r. Qed.

Lemma keeps_store_input_choice (issue : bool) :
  keeps_store (_NullIssuesField.input_choice issue).
Proof.
  intros w. unfold _NullIssuesField.input_choice.
  generalize (stdin w) as lines. intros lines. revert w.
  induction lines as [|line rest IH]; intros w; [reflexivity|].
  cbn [_NullIssuesField.read_choice].
  destruct (String.eqb line "1"); [reflexivity|].
  destruct (String.eqb line "2"); [reflexivity|].
  destruct (String.eqb line "3" && issue); [reflexivity|].
  now rewrite IH.
Qed.

Lemma keeps_store_add_one_time_default (self : Obj) (field : Field) (fd : Triple) :
  keeps_store (add_one_time_default self field fd).
Proof. intros w. apply add_one_time_default_heap. Qed.

Ltac keeps_store_step :=
  first
    [ apply keeps_store_ret | apply keeps_store_print | apply keeps_store_called
    | apply keeps_store_lift | apply keeps_store_input_choice
    | apply keeps_store_add_one_time_default
    | apply keeps_store_bind; [|intros ?]
    | match goal with
      | |- keeps_store (if ?b then _ else _) => destruct b
      end ].

(** X3. What the dialog does to the store: for a [String] or [Text] field with
    [blank] set, the entry [default] of the dict [field_def[2]] becomes
    [repr('')]; no other entry of that dict and no other dict is ever
    changed, and for any other field the store is as it was, however the
    dialog ends. *)
Theorem deal_with_store_effect (self : Obj) (field : Field) (fd : Triple)
    (w : World) :
  let h' := heap (world_of (deal_with_not_null_no_default self field fd w)) in
  (isinstance_String_Text field && blank field = false → h' = heap w) ∧
  (isinstance_String_Text field && blank field = true →
   h' (kwargs fd) !! "default" = Some (repr_text EmptyString)) ∧
  (∀ (l : loc) (key : string),
     l ≠ kwargs fd ∨ key ≠ "default" → h' l !! key = heap w l !! key).
Proof.
  cbv zeta.
  assert (Hnb : isinstance_String_Text field && blank field = false →
                heap (world_of (deal_with_not_null_no_default self field fd w))
                = heap w).
  { intros Hblank. unfold _NullIssuesField.deal_with_not_null_no_default.
    rewrite Hblank.
    match goal with
    | |- heap (world_of (?m w)) = _ => assert (Hk : keeps_store m); [|apply Hk]
    end.
    repeat keeps_store_step. }
  assert (Hb : isinstance_String_Text field && blank field = true →
               heap (world_of (deal_with_not_null_no_default self field fd w))
               = store (kwargs fd) "default" (repr_text EmptyString) (heap w)).
  { intros Hblank. unfold _NullIssuesField.deal_with_not_null_no_default.
    rewrite Hblank. reflexivity. }
  split; [exact Hnb|]. split.
  - intros Hblank. rewrite (Hb Hblank). unfold store.
    rewrite decide_True by reflexivity. apply lookup_insert_eq.
  - intros l key Hne.
    destruct (isinstance_String_Text field && blank field) eqn:Hblank;
      [|now rewrite Hnb].
    rewrite (Hb eq_refl). unfold store.
    destruct (decide (l = kwargs fd)) as [->|]; [|reflexivity].
    destruct Hne as [Hne|Hne]; [congruence|].
    apply lookup_insert_ne. congruence.
Qed.

(** *** How the dialog ends *)

(** X6. The ways [add_one_time_default] ends without a value, after the lines
    it asks again for: [exit] ends the process with status 1, code that
    raises anything but [SyntaxError] and [NameError] lets that exception
    through, and the end of input raises [EOFError]. *)
Theorem add_one_time_default_endings (self : Obj) (field : Field) (fd : Triple)
    (w : World) (junk rest : list string) :
  forallb (refused py_eval) junk = true →
  (stdin w = junk ++ "exit" :: rest →
   add_one_time_default self field fd w
   = Exited 1 (answered code_prompt (code_intro ++ refusals py_eval junk) rest w)) ∧
  (∀ (code : string) (e : Exc),
     code ≠ EmptyString → code ≠ "exit" → py_eval code = EvalRaised e →
     stdin w = junk ++ code :: rest →
     add_one_time_default self field fd w
     = Raised e (answered code_prompt (code_intro ++ refusals py_eval junk) rest w)) ∧
  (stdin w = junk →
   add_one_time_default self field fd w
   = Raised EOFError
       (answered code_prompt (code_intro ++ refusals py_eval junk) [] w)).
Proof.
  intros Hjunk.
  assert (Hrun : ∀ lines,
             stdin w = junk ++ lines →
             add_one_time_default self field fd w
             = (result ← (λ w1, read_code lines w1) : M string; mret tt)
                 {| stdin := lines;
                    trace := trace w ++ code_intro ++ refusals py_eval junk;
                    heap := heap w |}).
  { intros lines Hin.
    unfold _NullIssuesField.add_one_time_default, mbind, M_bind, called, print,
      _NullIssuesField.input_code.
    set (w1 := log _ (log _ (log _ w))).
    rewrite (read_code_refused junk lines w1 Hjunk Hin).
    replace {| stdin := lines; trace := trace w1 ++ refusals py_eval junk;
               heap := heap w1 |}
      with {| stdin := lines;
              trace := trace w ++ code_intro ++ refusals py_eval junk;
              heap := heap w |}; [reflexivity|].
    apply world_eq; cbn; try reflexivity. now rewrite <- !app_assoc. }
  assert (Hw : ∀ rest',
             consumed code_prompt rest'
               {| stdin := rest';
                  trace := trace w ++ code_intro ++ refusals py_eval junk;
                  heap := heap w |}
             = answered code_prompt (code_intro ++ refusals py_eval junk) rest' w).
  { intros rest'. apply world_eq; cbn; try reflexivity. now rewrite <- !app_assoc. }
  split; [|split].
  - intros Hin. rewrite (Hrun _ Hin). unfold mbind, M_bind.
    cbn [_NullIssuesField.read_code].
    change (String.eqb "exit" EmptyString) with false.
    change (String.eqb "exit" "exit") with true. cbv iota.
    f_equal. apply world_eq; cbn; try reflexivity. now rewrite <- !app_assoc.
  - intros code e Hne Hexit Heval Hin. rewrite (Hrun _ Hin). unfold mbind, M_bind.
    cbn [_NullIssuesField.read_code].
    apply String.eqb_neq in Hne, Hexit. rewrite Hne, Hexit, Heval.
    f_equal. apply world_eq; cbn; try reflexivity. now rewrite <- !app_assoc.
  - intros Hin. rewrite (Hrun []) by now rewrite app_nil_r.
    unfold mbind, M_bind. cbn [_NullIssuesField.read_code].
    f_equal. apply world_eq; cbn; try reflexivity. now rewrite <- !app_assoc.
Qed.

Lemma read_choice_Exited (issue : bool) (lines : list string) (w w' : World)
    (status : Z) :
  read_choice issue lines w = Exited status w' → status = 1%Z.
Proof.
  revert w. induction lines as [|line rest IH]; intros w; [discriminate|].
  cbn [_NullIssuesField.read_choice].
  destruct (String.eqb line "1"); [now intros [= <- _]|].
  destruct (String.eqb line "2"); [discriminate|].
  destruct (String.eqb line "3" && issue); [discriminate|apply IH].
Qed.

Lemma read_code_Exited (lines : list string) (w w' : World) (status : Z) :
  (∀ code st, py_eval code ≠ EvalExited st) →
  read_code lines w = Exited status w' → status = 1%Z.
Proof.
  intros Hev. revert w. induction lines as [|code rest IH]; intros w; [discriminate|].
  cbn [_NullIssuesField.read_code].
  destruct (String.eqb code EmptyString); [apply IH|].
  destruct (String.eqb code "exit"); [now intros [= <- _]|].
  destruct (py_eval code) eqn:E; try discriminate; try apply IH.
  now apply Hev in E.
Qed.

Lemma deal_with_Exited (self : Obj) (field : Field) (fd : Triple) (w w' : World)
    (status : Z) :
  (∀ code st, py_eval code ≠ EvalExited st) →
  deal_with_not_null_no_default self field fd w = Exited status w' →
  status = 1%Z.
Proof.
  intros Hev.
  unfold _NullIssuesField.deal_with_not_null_no_default.
  unfold mbind, M_bind, called, print, lift, setitem.
  destruct (isinstance_String_Text field && blank field); [discriminate|].
  rewrite format_field_line.
  destruct (null_reason self) as [reason|]; [|cbv beta iota; discriminate].
  rewrite format_reason_line.
  destruct (issue_with_backward_migration self) as [issue|];
    [|cbv beta iota; discriminate].
  assert (Hloop : ∀ w2 : World,
             (choice ← _NullIssuesField.input_choice issue;
              if String.eqb choice "2" then
                add_one_time_default self field fd;; mret self
              else if String.eqb choice "3" then mret (set_irreversible true self)
              else mret self) w2 = Exited status w' → status = 1%Z).
  { intros w2. unfold mbind, M_bind, _NullIssuesField.input_choice.
    destruct (_NullIssuesField.read_choice issue (stdin w2) w2)
      as [choice w3|st w3|] eqn:Echoice; [| |discriminate].
    - destruct (String.eqb choice "2").
      + unfold _NullIssuesField.add_one_time_default, mbind, M_bind, called,
          print, _NullIssuesField.input_code.
        match goal with
        | |- context [_NullIssuesField.read_code ?ev ?l ?w4] =>
            destruct (_NullIssuesField.read_code ev l w4) as [v w5|st w5|]
              eqn:Ecode
        end; [discriminate| |discriminate].
        intros [= <- _]. now apply read_code_Exited in Ecode.
      + destruct (String.eqb choice "3"); discriminate.
    - intros [= <- _]. now apply read_choice_Exited in Echoice. }
  destruct issue; apply Hloop.
Qed.

(** X7. When a constructor ends the process, the exit status is 1 (as long as
    the user's code does not itself exit). *)
Theorem new_exit_status (c : PyClass) (m : Model) (args : Payload) (app : string)
    (w : World) :
  (∀ code st, py_eval code ≠ EvalExited st) →
  exit_status (new repr_text py_eval c m args app w) = None ∨
  exit_status (new repr_text py_eval c m args app w) = Some 1%Z.
Proof.
  intros Hev.
  destruct (new repr_text py_eval c m args app w) as [self w'|status w'|e w']
    eqn:Hnew; [now left| |now left].
  right. cbn. f_equal. revert Hnew.
  unfold new. rewrite init_owner.
  destruct c, args; try discriminate;
    unfold AddModel.__init__, AddField.__init__, ChangeField.__init__,
      AddUnique.__init__, AddIndex.__init__, mbind, M_bind, lift;
    destruct (classify_model m) as [kind|]; try discriminate.
  - destruct (negb (required field) && negb (bool_decide (default field ≠ None)));
      [apply deal_with_Exited, Hev|discriminate].
  - destruct (negb (required field) && negb (bool_decide (default field ≠ None)));
      [apply deal_with_Exited, Hev|discriminate].
  - set (self0 := new_object ChangeField app m kind _).
    destruct (required old_field && negb (required new_field) &&
              negb (bool_decide (default new_field ≠ None))).
    + destruct (deal_with_not_null_no_default self0 new_field new_def w)
        as [self1 w1| |] eqn:E1; [| |discriminate].
      * destruct (negb (required old_field) && required new_field &&
                  negb (bool_decide (default old_field ≠ None)));
          [apply deal_with_Exited, Hev|discriminate].
      * intros [= <- _]. now apply deal_with_Exited in E1.
    + cbn [mret M_ret].
      destruct (negb (required old_field) && required new_field &&
                negb (bool_decide (default old_field ≠ None)));
        [apply deal_with_Exited, Hev|discriminate].
Qed.

(** *** The text of the outputs *)

Lemma append_empty_r (s : string) : s +:+ EmptyString = s.
Proof.
  induction s as [|c s IH]; [reflexivity|].
  change (String c (s +:+ EmptyString) = String c s). f_equal. exact IH.
Qed.

Lemma console_line_of_text (self : Obj) (s : string) :
  console_text repr_text self = Some s → console_line repr_text self = Ret s.
Proof.
  destruct self as [c app m mcn mt mn p nr iss irr].
  unfold console_text, on_model. cbn [cls payload app_name model_class_name model_name].
  destruct c, p; try discriminate; intros [= <-];
    unfold console_line; cbn; rewrite ?append_empty_r; reflexivity.
Qed.

(** X8. The console line of every constructed action, written out. An added
    model is shown by its element type or label and a deleted one by its
    class name; deleted and updated indexes are announced with a [+], like
    added ones. *)
Theorem console_line_text (c : PyClass) (m : Model) (args : Payload)
    (app : string) (w w' : World) (self : Obj) :
  new repr_text py_eval c m args app w = Done self w' →
  ∃ s, console_text repr_text self = Some s ∧ console_line repr_text self = Ret s.
Proof.
  intros (kind & _ & Hfam & Hcore)%new_Done.
  assert (Hsome : is_Some (console_text repr_text self)).
  { destruct Hcore as (Hc & _ & _ & _ & _ & _ & Hp). cbn in Hc, Hp.
    unfold console_text. rewrite Hc, Hp.
    destruct c, args; try discriminate Hfam; eexists; reflexivity. }
  destruct Hsome as [s Hs]. exists s. split; [exact Hs|].
  now apply console_line_of_text.
Qed.

Lemma deal_with_frame (self : Obj) (field : Field) (fd : Triple) (w : World)
    (l : loc) (key : string) :
  l ≠ kwargs fd ∨ key ≠ "default" →
  heap (world_of (deal_with_not_null_no_default self field fd w)) l !! key
  = heap w l !! key.
Proof.
  intros Hne. unfold _NullIssuesField.deal_with_not_null_no_default.
  destruct (isinstance_String_Text field && blank field).
  - unfold mbind, M_bind, called, setitem. cbn [world_of heap mret M_ret].
    unfold store. destruct (decide (l = kwargs fd)) as [->|]; [|reflexivity].
    destruct Hne as [Hne|Hne]; [congruence|]. apply lookup_insert_ne. congruence.
  - match goal with
    | |- heap (world_of (?m w)) _ !! _ = _ =>
        assert (Hk : keeps_store m); [|now rewrite Hk]
    end.
    repeat keeps_store_step.
Qed.

(** X4. However a constructor ends, the only entry of the store it can have
    changed is [default] in the [kwargs] dict of a field definition it was
    given; every other entry, and every other dict, is as it was. *)
Theorem new_store_frame (c : PyClass) (m : Model) (args : Payload) (app : string)
    (w : World) (l : loc) (key : string) :
  (∀ fd, fd ∈ field_defs args → l ≠ kwargs fd) ∨ key ≠ "default" →
  heap (world_of (new repr_text py_eval c m args app w)) l !! key
  = heap w l !! key.
Proof.
  intros Hne. unfold new. rewrite init_owner.
  destruct c, args; try reflexivity;
    unfold AddModel.__init__, AddField.__init__, ChangeField.__init__,
      AddUnique.__init__, AddIndex.__init__, mbind, M_bind, lift;
    destruct (classify_model m) as [kind|]; try reflexivity.
  - destruct (negb (required field) && negb (bool_decide (default field ≠ None)));
      [|reflexivity].
    apply deal_with_frame. destruct Hne as [Hne|Hne]; [left|right; exact Hne].
    apply Hne. cbn. repeat constructor.
  - destruct (negb (required field) && negb (bool_decide (default field ≠ None)));
      [|reflexivity].
    apply deal_with_frame. destruct Hne as [Hne|Hne]; [left|right; exact Hne].
    apply Hne. cbn. repeat constructor.
  - set (self0 := new_object ChangeField app m kind _).
    assert (Hold : l ≠ kwargs old_def ∨ key ≠ "default").
    { destruct Hne as [Hne|Hne]; [left|right; exact Hne]. apply Hne. cbn. repeat constructor. }
    assert (Hnew : l ≠ kwargs new_def ∨ key ≠ "default").
    { destruct Hne as [Hne|Hne]; [left|right; exact Hne]. apply Hne. cbn. repeat constructor. }
    destruct (required old_field && negb (required new_field) &&
              negb (bool_decide (default new_field ≠ None))).
    + pose proof (deal_with_frame self0 new_field new_def w l key Hnew) as H1.
      destruct (deal_with_not_null_no_default self0 new_field new_def w)
        as [self1 w1| |]; cbn [world_of] in *; try exact H1.
      destruct (negb (required old_field) && required new_field &&
                negb (bool_decide (default old_field ≠ None))); [|exact H1].
      rewrite <- H1. apply deal_with_frame. exact Hold.
    + cbn [mret M_ret].
      destruct (negb (required old_field) && required new_field &&
                negb (bool_decide (default old_field ≠ None))); [|reflexivity].
      apply deal_with_frame. exact Hold.
Qed.

(** X9. The deleting fragments, written out: [AddModel.backwards_code()] and
    [DeleteModel.forwards_code()] render [db.delete_vertex] or
    [db.delete_edge] on the [repr] of the model name, and
    [AddField.backwards_code()] and [DeleteField.forwards_code()] render
    [db.delete_property] on the [repr]s of the model name and of the field's
    column. *)
Theorem deleting_code_text (c : PyClass) (m : Model) (args : Payload)
    (app : string) (w w' : World) (self : Obj) :
  new repr_text py_eval c m args app w = Done self w' →
  (c = AddModel → backwards_code repr_text self = Ret (delete_model_code repr_text self)) ∧
  (c = DeleteModel → forwards_code repr_text self = Ret (delete_model_code repr_text self)) ∧
  (∀ field fd, args = FieldAttrs field fd →
     (c = AddField →
      backwards_code repr_text self = Ret (delete_field_code repr_text self field)) ∧
     (c = DeleteField →
      forwards_code repr_text self = Ret (delete_field_code repr_text self field))).
Proof.
  intros (kind & _ & Hfam & Hcore)%new_Done.
  destruct self as [c0 app0 m0 mcn mt mn p nr iss irr].
  destruct Hcore as (Hc & _ & _ & _ & _ & _ & Hp). cbn in Hc, Hp. subst c0 p.
  split; [|split].
  - intros ->. reflexivity.
  - intros ->. reflexivity.
  - intros field fd ->. split; intros ->; reflexivity.
Qed.

(** X10. The fragments of the constraint and index classes, written out: each
    is a comment line and one call of [db.create_unique],
    [db.delete_unique], [db.create_index], [db.delete_index] or
    [db.update_index] on the [repr] of the model name and the list of the
    fields' columns; the comment lists the fields' names. *)
Theorem constraint_code_text (c : PyClass) (m : Model) (fields : list Field)
    (app : string) (w w' : World) (self : Obj) (what call : string) :
  new repr_text py_eval c m (FieldsAttrs fields) app w = Done self w' →
  (constraint_forwards c = Some (what, call) →
   forwards_code repr_text self = Ret (constraint_code repr_text what call self fields)) ∧
  (constraint_backwards c = Some (what, call) →
   backwards_code repr_text self = Ret (constraint_code repr_text what call self fields)).
Proof.
  intros (kind & _ & Hfam & Hcore)%new_Done.
  destruct self as [c0 app0 m0 mcn mt mn p nr iss irr].
  destruct Hcore as (Hc & _ & _ & _ & _ & _ & Hp). cbn in Hc, Hp. subst c0 p.
  destruct c; try discriminate Hfam; split; intros [= <- <-]; reflexivity.
Qed.

(** X11. The notice of [irreversable_code], written out: on an [AddField],
    [DeleteField] or [ChangeField] it names the model class and the field by
    its name, twice, and uses nothing else of the action or the field. *)
Theorem irreversable_code_text (self : Obj) (field : Field) :
  cls self ∈ [AddField; DeleteField; ChangeField] →
  _NullIssuesField.irreversable_code repr_text self field
  = Ret (irreversible_notice self field).
Proof.
  intros Hcls. unfold _NullIssuesField.irreversable_code, template.
  repeat (apply elem_of_cons in Hcls as [-> | Hcls]; [reflexivity|]).
  now apply elem_of_nil in Hcls.
Qed.

(** *** The operation lists *)

(** X12. How the constraint classes fill the operation lists: [AddUnique] and
    [AddIndex] append the creating fragment to the forwards list and put the
    deleting fragment at the front of the backwards list; [DeleteUnique]
    puts the deleting fragment at the front of the forwards list and appends
    the creating fragment to the backwards list. *)
Theorem constraint_operation_lists (c : PyClass) (m : Model) (fields : list Field)
    (app : string) (w w' : World) (self : Obj) (l : list string) :
  new repr_text py_eval c m (FieldsAttrs fields) app w = Done self w' →
  let unique what call := constraint_code repr_text what call self fields in
  (c = AddUnique →
   add_forwards repr_text self l
   = Ret (l ++ [unique "Adding unique constraint" "create_unique"]) ∧
   add_backwards repr_text self l
   = Ret (unique "Removing unique constraint" "delete_unique" :: l)) ∧
  (c = DeleteUnique →
   add_forwards repr_text self l
   = Ret (unique "Removing unique constraint" "delete_unique" :: l) ∧
   add_backwards repr_text self l
   = Ret (l ++ [unique "Adding unique constraint" "create_unique"])) ∧
  (c = AddIndex →
   add_forwards repr_text self l
   = Ret (l ++ [unique "Adding index" "create_index"]) ∧
   add_backwards repr_text self l
   = Ret (unique "Removing index" "delete_index" :: l)).
Proof.
  intros (kind & _ & Hfam & Hcore)%new_Done.
  destruct self as [c0 app0 m0 mcn mt mn p nr iss irr].
  destruct Hcore as (Hc & _ & _ & _ & _ & _ & Hp). cbn in Hc, Hp. subst c0 p.
  cbv zeta. split; [|split]; intros ->; split; reflexivity.
Qed.

(** X13. The deleting fragments go to the end of their list: [add_backwards]
    of an [AddModel] and [add_forwards] of a [DeleteModel] append the
    fragment that deletes the model, [add_backwards] of an [AddField] and
    [add_forwards] of a [DeleteField] the one that deletes the field. *)
Theorem deleting_operation_lists (c : PyClass) (m : Model) (args : Payload)
    (app : string) (w w' : World) (self : Obj) (l : list string) :
  new repr_text py_eval c m args app w = Done self w' →
  (c = AddModel →
   add_backwards repr_text self l = Ret (l ++ [delete_model_code repr_text self])) ∧
  (c = DeleteModel →
   add_forwards repr_text self l = Ret (l ++ [delete_model_code repr_text self])) ∧
  (∀ field fd, args = FieldAttrs field fd →
     (c = AddField →
      add_backwards repr_text self l
      = Ret (l ++ [delete_field_code repr_text self field])) ∧
     (c = DeleteField →
      add_forwards repr_text self l
      = Ret (l ++ [delete_field_code repr_text self field]))).
Proof.
  intros (kind & _ & Hfam & Hcore)%new_Done.
  destruct self as [c0 app0 m0 mcn mt mn p nr iss irr].
  destruct Hcore as (Hc & _ & _ & _ & _ & _ & Hp). cbn in Hc, Hp. subst c0 p.
  split; [|split].
  - intros ->. reflexivity.
  - intros ->. reflexivity.
  - intros field fd ->. split; intros ->; reflexivity.
Qed.

(** C3, as the code has it. On a constructed action [add_forwards] places
    the value of [forwards_code()] by [prepend_forwards] and [add_backwards]
    that of [backwards_code()] by [prepend_backwards]: at index 0 when the
    flag holds, at the end otherwise; a code method that raises
    [AttributeError] lets nothing be placed. [prepend_forwards] holds for
    [DeleteUnique] alone. [prepend_backwards] holds for [AddUnique] and
    [AddIndex], and also for [DeleteIndex] and [UpdateIndex]: neither binds
    the flag itself, both resolve it to the [True] of [AddIndex], where
    [DeleteUnique] binds its own [False]. So [add_backwards] of a
    [DeleteIndex] or an [UpdateIndex] puts the fragment at index 0 of the
    backwards list, not at its end, while [add_forwards] appends. *)
Theorem operation_list_placement (c : PyClass) (m : Model) (args : Payload)
    (app : string) (w w' : World) (self : Obj) (l : list string) :
  new repr_text py_eval c m args app w = Done self w' →
  let front_forwards := bool_decide (c = DeleteUnique) in
  let front_backwards :=
    bool_decide (c ∈ [AddUnique; AddIndex; DeleteIndex; UpdateIndex]) in
  (prepend_forwards self = Ret front_forwards ∧
   prepend_backwards self = Ret front_backwards) ∧
  match forwards_helper c with
  | Some helper => add_forwards repr_text self l = Err (AttributeError helper)
  | None => ∃ code, forwards_code repr_text self = Ret code ∧
                    add_forwards repr_text self l
                    = Ret (placed front_forwards code l)
  end ∧
  match backwards_helper c with
  | Some helper => add_backwards repr_text self l = Err (AttributeError helper)
  | None => ∃ code, backwards_code repr_text self = Ret code ∧
                    add_backwards repr_text self l
                    = Ret (placed front_backwards code l)
  end ∧
  (c ∈ [DeleteIndex; UpdateIndex] →
   assoc "prepend_backwards" (class_dict c) = None ∧
   class_getattr c "prepend_backwards" = Some (AddIndex, ABool true) ∧
   ∀ fields what call what' call',
     args = FieldsAttrs fields →
     constraint_forwards c = Some (what, call) →
     constraint_backwards c = Some (what', call') →
     add_forwards repr_text self l
     = Ret (l ++ [constraint_code repr_text what call self fields]) ∧
     add_backwards repr_text self l
     = Ret (constraint_code repr_text what' call' self fields :: l)) ∧
  class_getattr DeleteUnique "prepend_backwards" = Some (DeleteUnique, ABool false).
Proof.
  intros (kind & _ & Hfam & Hcore)%new_Done.
  destruct (outputs_table self c app m kind args Hcore Hfam) as (_ & Hf & Hb).
  cbv zeta.
  assert (Hflags :
    prepend_forwards self = Ret (bool_decide (c = DeleteUnique)) ∧
    prepend_backwards self
    = Ret (bool_decide (c ∈ [AddUnique; AddIndex; DeleteIndex; UpdateIndex]))).
  { destruct Hcore as (Hc & _). cbn in Hc.
    unfold prepend_forwards, prepend_backwards. rewrite Hc.
    destruct c, args; try discriminate Hfam; split; reflexivity. }
  destruct Hflags as [Hpf Hpb].
  split; [split; assumption|]. split; [|split; [|split; [|reflexivity]]].
  - unfold add_forwards. rewrite Hpf. unfold outcome_with in Hf.
    destruct (forwards_helper c) as [helper|].
    + rewrite Hf. destruct (bool_decide (c = DeleteUnique)); reflexivity.
    + destruct Hf as [code Hcode]. exists code. split; [exact Hcode|].
      rewrite Hcode. destruct (bool_decide (c = DeleteUnique)); reflexivity.
  - unfold add_backwards. rewrite Hpb. unfold outcome_with in Hb.
    destruct (backwards_helper c) as [helper|].
    + rewrite Hb.
      destruct (bool_decide (c ∈ [AddUnique; AddIndex; DeleteIndex; UpdateIndex]));
        reflexivity.
    + destruct Hb as [code Hcode]. exists code. split; [exact Hcode|].
      rewrite Hcode.
      destruct (bool_decide (c ∈ [AddUnique; AddIndex; DeleteIndex; UpdateIndex]));
        reflexivity.
  - intros Hc.
    destruct self as [c0 app0 m0 mcn mt mn p nr iss irr].
    destruct Hcore as (Hc0 & _ & _ & _ & _ & _ & Hp). cbn in Hc0, Hp.
    subst c0 p.
    apply elem_of_cons in Hc as [-> | Hc];
      [|apply list_elem_of_singleton in Hc as ->];
      (split; [reflexivity|]; split; [reflexivity|];
       intros fields what call what' call' -> [= <- <-] [= <- <-];
       split; reflexivity).
Qed.


End Properties.

(** * Concrete runs *)

(** C3 on a [DeleteIndex] and on an [UpdateIndex]: [add_forwards] appends
    the fragment, [add_backwards] puts it at index 0, in front of what the
    backwards list held, which is not the list with the fragment appended. *)
Lemma operation_list_placement_witness :
  (add_forwards quote_repr a_delete_index ["first"]
   = Ret ["first";
          constraint_code quote_repr "Removing index" "delete_index"
            a_delete_index [age]] ∧
   add_backwards quote_repr a_delete_index ["first"]
   = Ret [constraint_code quote_repr "Adding index" "create_index"
            a_delete_index [age];
          "first"] ∧
   add_backwards quote_repr a_delete_index ["first"]
   ≠ (code ← backwards_code quote_repr a_delete_index;
      Ret (["first"] ++ [code]))) ∧
  (add_forwards quote_repr an_update_index ["first"]
   = Ret ["first";
          constraint_code quote_repr "Updating index" "update_index"
            an_update_index [age; years]] ∧
   add_backwards quote_repr an_update_index ["first"]
   = Ret [constraint_code quote_repr "Updating index" "update_index"
            an_update_index [age; years];
          "first"] ∧
   add_backwards quote_repr an_update_index ["first"]
   ≠ (code ← backwards_code quote_repr an_update_index;
      Ret (["first"] ++ [code]))).
Proof.
  split.
  - destruct (operation_list_placement quote_repr toy_eval DeleteIndex person
                (FieldsAttrs [age]) "app" (world0 []) (world0 [])
                a_delete_index ["first"] eq_refl) as (_ & _ & _ & H & _).
    destruct H as (_ & _ & H); [repeat constructor|].
    destruct (H [age] _ _ _ _ eq_refl eq_refl eq_refl) as [Hf Hb].
    split; [exact Hf|]. split; [exact Hb|].
    rewrite Hb. vm_compute. intros E. discriminate E.
  - destruct (operation_list_placement quote_repr toy_eval UpdateIndex person
                (FieldsAttrs [age; years]) "app" (world0 []) (world0 [])
                an_update_index ["first"] eq_refl) as (_ & _ & _ & H & _).
    destruct H as (_ & _ & H); [repeat constructor|].
    destruct (H [age; years] _ _ _ _ eq_refl eq_refl eq_refl) as [Hf Hb].
    split; [exact Hf|]. split; [exact Hb|].
    rewrite Hb. vm_compute. intros E. discriminate E.
Defined.

(** C1 at a required field without a default: the constructor returns at
    once, the console is untouched and no line of input is read. *)
Example AddField_required_without_default :
  new quote_repr toy_eval AddField person (FieldAttrs years years_def) "app"
    (world0 ["1"])
  = Done (sample AddField person vertex_kind (FieldAttrs years years_def))
      (world0 ["1"]).
Proof. reflexivity. Qed.

(** C1 at a field that is not required and has no default: the dialog runs
    and the answer [1] ends the process. *)
Example AddField_optional_without_default :
  new quote_repr toy_eval AddField person (FieldAttrs age age_def) "app"
    (world0 ["1"])
  = Exited 1
      (answered choice_prompt (menu an_add_field age "adding this field" false)
         [] (world0 ["1"])).
Proof. reflexivity. Qed.


(** C9 on an [AddField]: after [2], an empty line and an unbound name are
    refused, [42] evaluates, and the store is as before. *)
Lemma one_time_default_is_discarded_witness :
  _NullIssuesField.deal_with_not_null_no_default quote_repr toy_eval
    an_add_field age age_def (world0 ["2"; EmptyString; "x"; "42"; "left"])
  = Done an_add_field
      (answered code_prompt
         (menu an_add_field age "adding this field" false ++ reprompts [] ++
          [Prompted choice_prompt] ++ code_intro ++ refusals toy_eval [EmptyString; "x"])
         ["left"] (world0 ["2"; EmptyString; "x"; "42"; "left"])).
Proof.
  destruct (one_time_default_is_discarded quote_repr toy_eval an_add_field age
              age_def (world0 ["2"; EmptyString; "x"; "42"; "left"])) as [_ H].
  assert (Hcode : evaluates toy_eval "42" "42")
    by (repeat split; discriminate).
  destruct (H [EmptyString; "x"] "42" "42" ["left"] eq_refl Hcode) as [_ Hdeal].
  apply (Hdeal "adding this field" false []); reflexivity.
Defined.

(** C10 on an index over two fields. *)
Lemma UpdateIndex_forwards_is_backwards_witness :
  forwards_code quote_repr an_update_index
  = backwards_code quote_repr an_update_index ∧
  forwards_code quote_repr an_update_index
  = update_code quote_repr an_update_index.
Proof.
  apply (UpdateIndex_forwards_is_backwards quote_repr an_update_index).
  reflexivity.
Defined.

(** C5 at an [AddModel]: the console line is there, [forwards_code()]
    raises. *)
Lemma constructed_action_outputs_witness :
  (∃ s, console_line quote_repr an_add_model = Ret s) ∧
  forwards_code quote_repr an_add_model ≠ Err NotImplementedError ∧
  backwards_code quote_repr an_add_model ≠ Err NotImplementedError ∧
  forwards_code quote_repr an_add_model = Err (AttributeError "triples_to_defs") ∧
  (∃ s, backwards_code quote_repr an_add_model = Ret s).
Proof.
  apply (constructed_action_outputs quote_repr toy_eval AddModel person
           (ModelAttrs [("age", age_def)]) "app" (world0 []) (world0 [])
           an_add_model).
  reflexivity.
Defined.

(** C7 at a [DeleteField] whose user chose [3]: [irreversible] is set and
    [backwards_code()] raises. *)
Lemma irreversible_backwards_code_raises_witness :
  irreversible (set_irreversible true a_delete_field) = Ret true ∧
  backwards_code quote_repr (set_irreversible true a_delete_field)
  = Err (AttributeError "triple_to_def").
Proof.
  split; [reflexivity|].
  apply (irreversible_backwards_code_raises quote_repr toy_eval DeleteField person
           (FieldAttrs age age_def) "app" (world0 ["3"])
           (answered choice_prompt
              (menu a_delete_field age "removing this field" true) []
              (world0 ["3"]))
           (set_irreversible true a_delete_field)).
  - reflexivity.
  - left. reflexivity.
Defined.

(** C8 at a [ChangeField] whose columns differ. *)
Lemma ChangeField_code_generation_raises_witness :
  column age ≠ column years ∧
  forwards_code quote_repr (set_irreversible true a_change_field)
  = Err (AttributeError "triple_to_def") ∧
  backwards_code quote_repr (set_irreversible true a_change_field)
  = Err (AttributeError "triple_to_def").
Proof.
  split; [discriminate|].
  apply (ChangeField_code_generation_raises quote_repr toy_eval person age years
           age_def years_def "app" (world0 ["3"])
           (answered choice_prompt
              (menu a_change_field age "making this field nullable" true) []
              (world0 ["3"]))
           (set_irreversible true a_change_field)).
  reflexivity.
Defined.

(** C6 at an [AddUnique] on a class that is no model. *)
Lemma new_classifies_model_witness :
  new quote_repr toy_eval AddUnique plain (FieldsAttrs [age]) "app" (world0 [])
  = Raised (MogwaiMigrationException
              "<class 'app.models.Plain'> is Not a Vertex or Edge") (world0 []).
Proof.
  destruct (new_classifies_model quote_repr toy_eval AddUnique plain
              (FieldsAttrs [age]) "app" (world0 []) eq_refl) as [H _].
  apply H. reflexivity.
Defined.

(** C6 at an [AddIndex] on an edge. *)
Example new_AddIndex_on_edge :
  new quote_repr toy_eval AddIndex knows (FieldsAttrs [age]) "app" (world0 [])
  = Done (sample AddIndex knows ("edge", "knows_label") (FieldsAttrs [age]))
      (world0 []).
Proof. reflexivity. Qed.

(** * Concrete runs of the further properties *)

Lemma toy_eval_never_exits (code : string) (status : Z) :
  toy_eval code ≠ EvalExited status.
Proof.
  unfold toy_eval.
  destruct (String.eqb code "42"); [discriminate|].
  destruct (String.eqb code "x"); [discriminate|].
  destruct (String.eqb code "("); discriminate.
Qed.

(** An [AddUnique] is built without a word. *)
Lemma new_defaulted_is_silent_witness :
  world_of (new quote_repr toy_eval AddUnique person (FieldsAttrs [age; years])
              "app" (world0 ["1"; "2"]))
  = world0 ["1"; "2"].
Proof.
  apply (new_defaulted_is_silent quote_repr toy_eval AddUnique person
           (FieldsAttrs [age; years]) "app" (world0 ["1"; "2"])).
  reflexivity.
Defined.

(** An [AddField] whose user answers [3], then [2] and [42]: [3] is not
    taken and [irreversible] stays unset. *)
Lemma irreversible_only_after_backward_issue_witness :
  irreversible an_add_field = Ret false.
Proof.
  destruct (irreversible_only_after_backward_issue quote_repr toy_eval AddField
              person (FieldAttrs age age_def) "app" (world0 ["3"; "2"; "42"])
              (answered code_prompt
                 (menu an_add_field age "adding this field" false ++
                  reprompts ["3"] ++ [Prompted choice_prompt] ++ code_intro)
                 [] (world0 ["3"; "2"; "42"]))
              an_add_field eq_refl) as [_ H].
  apply H. reflexivity.
Defined.

(** The dialog on the blank text field [nick]: its default is [u''] and
    the other dict is untouched. *)
Lemma deal_with_store_effect_witness :
  heap (world_of (_NullIssuesField.deal_with_not_null_no_default quote_repr
                    toy_eval an_add_field nick age_def (world0 ["1"])))
    0 !! "default" = Some "u''" ∧
  heap (world_of (_NullIssuesField.deal_with_not_null_no_default quote_repr
                    toy_eval an_add_field nick age_def (world0 ["1"])))
    1 !! "default" = None.
Proof.
  destruct (deal_with_store_effect quote_repr toy_eval an_add_field nick age_def
              (world0 ["1"])) as (_ & Hset & Hframe).
  split.
  - apply Hset. reflexivity.
  - rewrite (Hframe 1 "default"); [reflexivity|].
    left. discriminate.
Defined.

(** [exit] after an empty line at the code prompt. *)
Lemma add_one_time_default_endings_witness :
  _NullIssuesField.add_one_time_default toy_eval an_add_field age age_def
    (world0 [EmptyString; "exit"; "42"])
  = Exited 1
      (answered code_prompt (code_intro ++ refusals toy_eval [EmptyString])
         ["42"] (world0 [EmptyString; "exit"; "42"])).
Proof.
  destruct (add_one_time_default_endings toy_eval an_add_field age age_def
              (world0 [EmptyString; "exit"; "42"]) [EmptyString] ["42"] eq_refl)
    as [H _].
  apply H. reflexivity.
Defined.

(** A [DeleteField] whose user answers [1]. *)
Lemma new_exit_status_witness :
  exit_status (new quote_repr toy_eval DeleteField person (FieldAttrs age age_def)
                 "app" (world0 ["1"])) = None ∨
  exit_status (new quote_repr toy_eval DeleteField person (FieldAttrs age age_def)
                 "app" (world0 ["1"])) = Some 1%Z.
Proof.
  apply (new_exit_status quote_repr toy_eval DeleteField person
           (FieldAttrs age age_def) "app" (world0 ["1"])).
  apply toy_eval_never_exits.
Defined.

(** The console line of a [DeleteIndex]. *)
Lemma console_line_text_witness :
  ∃ s, console_text quote_repr a_delete_index = Some s ∧
       console_line quote_repr a_delete_index = Ret s.
Proof.
  apply (console_line_text quote_repr toy_eval DeleteIndex person
           (FieldsAttrs [age]) "app" (world0 []) (world0 []) a_delete_index).
  reflexivity.
Defined.

(** The forwards code of a [DeleteField]. *)
Lemma deleting_code_text_witness :
  forwards_code quote_repr a_delete_field
  = Ret (delete_field_code quote_repr a_delete_field age).
Proof.
  destruct (deleting_code_text quote_repr toy_eval DeleteField person
              (FieldAttrs age age_def) "app" (world0 ["2"; "42"])
              (answered code_prompt
                 (menu a_delete_field age "removing this field" true ++
                  [Prompted choice_prompt] ++ code_intro)
                 [] (world0 ["2"; "42"]))
              a_delete_field eq_refl) as (_ & _ & H).
  destruct (H age age_def eq_refl) as [_ Hdel]. apply Hdel. reflexivity.
Defined.

(** The code of an [UpdateIndex], the same in both directions. *)
Lemma constraint_code_text_witness :
  forwards_code quote_repr an_update_index
  = Ret (constraint_code quote_repr "Updating index" "update_index"
           an_update_index [age; years]) ∧
  backwards_code quote_repr an_update_index
  = Ret (constraint_code quote_repr "Updating index" "update_index"
           an_update_index [age; years]).
Proof.
  destruct (constraint_code_text quote_repr toy_eval UpdateIndex person
              [age; years] "app" (world0 []) (world0 []) an_update_index
              "Updating index" "update_index" eq_refl) as [Hf Hb].
  split; [apply Hf|apply Hb]; reflexivity.
Defined.

(** The notice of a [ChangeField] about its old field. *)
Lemma irreversable_code_text_witness :
  _NullIssuesField.irreversable_code quote_repr a_change_field age
  = Ret (irreversible_notice a_change_field age).
Proof.
  apply (irreversable_code_text quote_repr a_change_field age).
  cbn. repeat constructor.
Defined.

(** An [AddField] on the blank text field [nick], whose definition holds
    the dict at address 0: the dict at address 1 is as it was. *)
Lemma new_store_frame_witness :
  heap (world_of (new quote_repr toy_eval AddField person (FieldAttrs nick age_def)
                    "app" (world0 []))) 1 !! "default"
  = heap (world0 []) 1 !! "default".
Proof.
  apply (new_store_frame quote_repr toy_eval AddField person
           (FieldAttrs nick age_def) "app" (world0 []) 1 "default").
  left. intros fd Hfd. cbn in Hfd.
  apply list_elem_of_singleton in Hfd as ->. discriminate.
Defined.

(** A [DeleteUnique] on lists that already hold an entry. *)
Lemma constraint_operation_lists_witness :
  let self := sample DeleteUnique person vertex_kind (FieldsAttrs [age]) in
  add_forwards quote_repr self ["first"]
  = Ret [constraint_code quote_repr "Removing unique constraint" "delete_unique"
           self [age]; "first"] ∧
  add_backwards quote_repr self ["first"]
  = Ret ["first";
         constraint_code quote_repr "Adding unique constraint" "create_unique"
           self [age]].
Proof.
  destruct (constraint_operation_lists quote_repr toy_eval DeleteUnique person
              [age] "app" (world0 []) (world0 [])
              (sample DeleteUnique person vertex_kind (FieldsAttrs [age]))
              ["first"] eq_refl) as (_ & H & _).
  apply H. reflexivity.
Defined.

(** An [AddModel] appends the deleting fragment to the backwards list. *)
Lemma deleting_operation_lists_witness :
  add_backwards quote_repr an_add_model ["first"]
  = Ret ["first"; delete_model_code quote_repr an_add_model].
Proof.
  destruct (deleting_operation_lists quote_repr toy_eval AddModel person
              (ModelAttrs [("age", age_def)]) "app" (world0 []) (world0 [])
              an_add_model ["first"] eq_refl) as [H _].
  apply H. reflexivity.
Defined.
